(** * Markdown-to-notebook conversion: a shallow embedding

    The development follows [src/library_exploration]:
    - [convert_to_notebook.py]: [parse_markdown_file], [create_notebook],
      [add_setup_cell], [add_toc_cell], [process_shell_commands], [main];
    - [test_code_blocks.py]: [validate_python_syntax];
    - [validate_notebook.py]: [validate_notebook].

    A Python [str] is embedded as a [string] whose characters are code
    points below 256; the character classes of [str.strip], [str.lower]
    and of the regular-expression class [\w] are written out for that
    range.  A [dict] with a fixed set of keys is a record, a [list] is a
    [list], and the external collaborators ([ast.parse], the notebook
    executor) are Section variables. *)

From Stdlib Require Import Bool Arith Lia List Sorted Permutation Ascii String.
From Stdlib Require Import Numbers.DecimalString.
Import ListNotations.
Open Scope string_scope.

(** ** Python string operations *)

Module PyStr.

(** The newline character and the one-character strings that Rocq string
    literals cannot spell. *)
Definition nl : ascii := ascii_of_nat 10.
Definition NL : string := String nl "".
Definition DQ : string := String (ascii_of_nat 34) "".

Definition between (lo hi n : nat) : bool := Nat.leb lo n && Nat.leb n hi.

(** [str.isspace] on one character. *)
Definition isspace (c : ascii) : bool :=
  let n := nat_of_ascii c in
  between 9 13 n || between 28 32 n || Nat.eqb n 133 || Nat.eqb n 160.

(** The class [\w] of [re] on [str] patterns: alphanumerics and the
    underscore. *)
Definition isword (c : ascii) : bool :=
  let n := nat_of_ascii c in
  between 48 57 n || between 65 90 n || Nat.eqb n 95 || between 97 122 n
  || Nat.eqb n 170 || Nat.eqb n 178 || Nat.eqb n 179 || Nat.eqb n 181
  || Nat.eqb n 185 || Nat.eqb n 186 || between 188 190 n || between 192 214 n
  || between 216 246 n || between 248 255 n.

(** [str.lower] on one character. *)
Definition lower_char (c : ascii) : ascii :=
  let n := nat_of_ascii c in
  if between 65 90 n || (between 192 222 n && negb (Nat.eqb n 215))
  then ascii_of_nat (n + 32) else c.

Fixpoint lower (s : string) : string :=
  match s with
  | EmptyString => EmptyString
  | String c s' => String (lower_char c) (lower s')
  end.

(** Truth value of a string: non-empty. *)
Definition nonempty (s : string) : bool :=
  match s with EmptyString => false | String _ _ => true end.

Fixpoint lstrip (s : string) : string :=
  match s with
  | EmptyString => EmptyString
  | String c s' => if isspace c then lstrip s' else s
  end.

Fixpoint rstrip (s : string) : string :=
  match s with
  | EmptyString => EmptyString
  | String c s' =>
      match rstrip s' with
      | EmptyString => if isspace c then EmptyString else String c EmptyString
      | r => String c r
      end
  end.

(** [s.strip()] *)
Definition strip (s : string) : string := rstrip (lstrip s).

(** [s.split('\n')]: never the empty list. *)
Fixpoint split_nl (s : string) : list string :=
  match s with
  | EmptyString => [EmptyString]
  | String c s' =>
      if Ascii.eqb c nl then EmptyString :: split_nl s'
      else match split_nl s' with
           | l :: ls => String c l :: ls
           | [] => [String c EmptyString]
           end
  end.

(** [sep.join(ls)] is [String.concat]; [s.startswith(p)] is [prefix]. *)
Definition join (sep : string) (ls : list string) : string := concat sep ls.
Definition startswith (s p : string) : bool := prefix p s.

(** [sub in s] *)
Fixpoint contains (sub s : string) : bool :=
  prefix sub s ||
  match s with
  | EmptyString => false
  | String _ s' => contains sub s'
  end.

(** [s[n:]] and [s[:n]] and [s[a:b]] for non-negative bounds. *)
Fixpoint drop (n : nat) (s : string) : string :=
  match n, s with
  | O, _ => s
  | S _, EmptyString => EmptyString
  | S n', String _ s' => drop n' s'
  end.

Fixpoint take (n : nat) (s : string) : string :=
  match n, s with
  | O, _ => EmptyString
  | S _, EmptyString => EmptyString
  | S n', String c s' => String c (take n' s')
  end.

Definition slice (s : string) (a b : nat) : string := take (b - a) (drop a s).

(** [s.count('\n')] *)
Fixpoint count_nl (s : string) : nat :=
  match s with
  | EmptyString => 0
  | String c s' => (if Ascii.eqb c nl then 1 else 0) + count_nl s'
  end.

(** [str(n)] for a non-negative integer. *)
Definition str_of_nat (n : nat) : string :=
  NilZero.string_of_uint (Nat.to_uint n).

(** [x in ls] for a list of strings. *)
Definition in_list (x : string) (ls : list string) : bool :=
  existsb (String.eqb x) ls.

End PyStr.

Import PyStr.

(** ** The fenced-block pattern

    [code_block_pattern = r'```(\w+)?\n(.*?)```'], searched with
    [re.finditer(..., re.DOTALL)]. *)

Module Scanner.

Definition fence : string := "```".

(** A match object: [start()], [end()], [group(1)], [group(2)]. *)
Record re_match := mkMatch {
  m_start : nat;
  m_end : nat;
  group1 : option string;
  group2 : string
}.

(** The longest run of [\w] characters at the head of [s], and what
    follows it. *)
Fixpoint span_word (s : string) : string * string :=
  match s with
  | EmptyString => (EmptyString, EmptyString)
  | String c s' =>
      if isword c then let (w, r) := span_word s' in (String c w, r)
      else (EmptyString, s)
  end.

(** The lazy body [(.*?)] followed by the closing fence: the text before
    the first fence of [s], and what follows that fence. *)
Fixpoint find_fence (s : string) : option (string * string) :=
  if prefix fence s then Some (EmptyString, drop 3 s)
  else match s with
       | EmptyString => None
       | String c s' =>
           match find_fence s' with
           | Some (b, r) => Some (String c b, r)
           | None => None
           end
       end.

(** The pattern anchored at the head of [s]: [group(1)], [group(2)] and
    the text after the match.  The greedy optional group takes the whole
    run of word characters or nothing, since the character after it must
    be a newline. *)
Definition match_here (s : string) : option (option string * string * string) :=
  if prefix fence s then
    let (w, r) := span_word (drop 3 s) in
    match r with
    | String c r' =>
        if Ascii.eqb c nl then
          match find_fence r' with
          | Some (b, rest) =>
              Some (if nonempty w then Some w else None, b, rest)
          | None => None
          end
        else None
    | EmptyString => None
    end
  else None.

(** Leftmost non-overlapping matches of [s], the text from offset [pos]
    on.  Every step consumes a character, so [length s] steps are
    enough. *)
Fixpoint finditer_from (fuel pos : nat) (s : string) : list re_match :=
  match fuel with
  | O => []
  | S fuel' =>
      match match_here s with
      | Some (g1, g2, rest) =>
          let e := pos + (length s - length rest) in
          mkMatch pos e g1 g2 :: finditer_from fuel' e rest
      | None =>
          match s with
          | EmptyString => []
          | String _ s' => finditer_from fuel' (S pos) s'
          end
      end
  end.

Definition finditer (content : string) : list re_match :=
  finditer_from (length content) 0 content.

(** [match.group(0)]: the matched text. *)
Definition group0 (m : re_match) : string :=
  fence ++ match group1 m with Some w => w | None => EmptyString end
        ++ NL ++ group2 m ++ fence.

End Scanner.

Import Scanner.

(** ** convert_to_notebook.py *)

Module Convert.

(** Values stored in the [metadata] dictionaries. *)
#[warnings="-register-all"] Inductive pyval :=
| PStr (s : string)
| PInt (n : nat)
| PDict (kvs : list (string * pyval)).

Definition pydict := list (string * pyval).

Fixpoint lookup (k : string) (d : pydict) : option pyval :=
  match d with
  | [] => None
  | (k', v) :: d' => if String.eqb k k' then Some v else lookup k d'
  end.

(** A notebook cell.  The keys [execution_count] and [outputs] exist in
    code cells only: the outer [None] is an absent key, and
    [Some None] is the key bound to Python's [None]. *)
Record cell := mkCell {
  cell_type : string;
  execution_count : option (option nat);
  metadata : pydict;
  outputs : option (list pyval);
  source : list string
}.

Definition set_source (c : cell) (src : list string) : cell :=
  mkCell (cell_type c) (execution_count c) (metadata c) (outputs c) src.

(** ['text\n'] *)
Definition ln (s : string) : string := s ++ NL.

(** [[line + '\n' for line in text.split('\n')]] *)
Definition lines_nl (text : string) : list string := map ln (split_nl text).

(** The three kinds of unit a fenced block can become. *)
Inductive kind := Code | Shell | Markdown.

Definition python_tags : list string := ["python"; "py"].
Definition shell_tags : list string := ["bash"; "shell"; "sh"; "zsh"].

Definition is_python_tag (language : string) : bool :=
  in_list (lower language) python_tags.
Definition is_shell_tag (language : string) : bool :=
  in_list (lower language) shell_tags.

(** The conditions of the [if]/[elif]/[else] chain of
    [parse_markdown_file] (lines 68, 70, 148, 163). *)
Definition classify (language code_content : string) : kind :=
  if is_python_tag language then
    if contains ">>>" code_content then Markdown else Code
  else if is_shell_tag language || contains "$" code_content then Shell
  else Markdown.

(** The specification's reading of an interactive-prompt marker: some
    line of the body begins with the three-character prompt. *)
Definition has_prompt_line (code_content : string) : bool :=
  existsb (fun line => startswith line ">>>") (split_nl code_content).

(** The module names whose imports the rewriter synthesizes. *)
Definition known_modules : list string := ["os"; "sys"; "requests"; "inspect"].

(** [match.group(1) or ''] *)
Definition language_of (m : re_match) : string :=
  match group1 m with
  | Some w => if nonempty w then w else EmptyString
  | None => EmptyString
  end.

(** Lines 84-104: the synthesized lines placed before the body. *)
Definition import_lines (code_content : string) : list string :=
  (if contains "os." code_content && negb (contains "import os" code_content)
   then [ln "import os"] else [])
  ++ (if contains "sys." code_content && negb (contains "import sys" code_content)
      then [ln "import sys"] else [])
  ++ (if contains "requests." code_content
         && negb (contains "import requests" code_content)
      then [ln "import requests"] else [])
  ++ (if contains "inspect." code_content
         && negb (contains "import inspect" code_content)
      then [ln "import inspect"] else [])
  ++ (if contains "obj." code_content && negb (contains "obj =" code_content)
         && negb (contains "obj=" code_content)
      then [ln "obj = requests  # Example object for inspection"] else [])
  ++ (if contains "pkg_resources" code_content
      then [ln "try:";
            ln "    import pkg_resources";
            ln "except ImportError:";
            ln ("    print(" ++ DQ
                ++ "pkg_resources not available - skipping package introspection"
                ++ DQ ++ ")");
            ln "    pkg_resources = None"]
      else []).

(** Lines 122-140: the loop that guards the uses of [pkg_resources];
    [in_pkg_block] is the loop's flag. *)
Fixpoint modified_lines (in_pkg_block : bool) (lines : list string) : list string :=
  match lines with
  | [] => []
  | line :: rest =>
      if contains "pkg_resources." line then
        ln "if pkg_resources is not None:" :: ln ("    " ++ line)
          :: modified_lines true rest
      else if startswith (strip line) "import pkg_resources" then
        modified_lines in_pkg_block rest
      else if in_pkg_block
              && (contains "print(" line || contains "dist." line
                  || contains "entry_points" line) then
        ln "if pkg_resources is not None:" :: ln ("    " ++ line)
          :: modified_lines false rest
      else ln line :: modified_lines false rest
  end.

Section Parse.

Variable file_path : string.

Definition anchor_of (line : nat) : string :=
  file_path ++ ":" ++ str_of_nat line.

Definition source_metadata (line : nat) : pydict :=
  [("source_file", PStr file_path);
   ("source_line", PInt line);
   ("source_anchor", PStr (anchor_of line))].

Definition html_anchor (line : nat) : string :=
  ln ("<!-- source:" ++ anchor_of line ++ " -->").
Definition code_anchor (line : nat) : string :=
  ln ("# [source:" ++ anchor_of line ++ "]").

Definition markdown_cell (line : nat) (src : list string) : cell :=
  mkCell "markdown" None (source_metadata line) None src.
Definition code_cell (line : nat) (src : list string) : cell :=
  mkCell "code" (Some None) (source_metadata line) (Some []) src.

(** Lines 57-65 and 181-189: a prose span. *)
Definition prose_cell (md_start_line : nat) (markdown_content : string) : cell :=
  markdown_cell md_start_line
    (html_anchor md_start_line :: lines_nl markdown_content).

(** Lines 68-174: the cell of one fenced block. *)
Definition block_cell (start_line : nat) (language code_content : string) : cell :=
  if in_list (lower language) python_tags then
    if contains ">>>" code_content then
      markdown_cell start_line
        [html_anchor start_line;
         ln "```python" ++ code_content ++ NL ++ "```"]
    else
      code_cell start_line
        (code_anchor start_line :: import_lines code_content
           ++ (if contains "pkg_resources" code_content
               then modified_lines false (split_nl code_content)
               else lines_nl code_content))
  else if in_list (lower language) shell_tags || contains "$" code_content then
    code_cell start_line
      (code_anchor start_line :: ln "%%bash" :: lines_nl code_content)
  else
    markdown_cell start_line
      [html_anchor start_line;
       ln ("```" ++ language) ++ code_content ++ NL ++ "```"].

Variable content : string.

(** [content[:offset].count('\n') + 1] *)
Definition line_at (offset : nat) : nat := count_nl (take offset content) + 1.

(** Lines 52-66 and 177-190: the prose between [last_end] and [stop],
    kept when it is not blank. *)
Definition prose_cells (last_end : nat) (span : string) : list cell :=
  let markdown_content := strip span in
  if nonempty markdown_content
  then [prose_cell (line_at last_end) markdown_content]
  else [].

(** The [for] loop over the matches, [last_end] being its variable, and
    the code after the loop. *)
Fixpoint parse_loop (ms : list re_match) (last_end : nat) : list cell :=
  match ms with
  | [] => prose_cells last_end (drop last_end content)
  | m :: ms' =>
      prose_cells last_end (slice content last_end (m_start m))
      ++ block_cell (line_at (m_start m)) (language_of m) (strip (group2 m))
      :: parse_loop ms' (m_end m)
  end.

Definition parse_markdown_file : list cell :=
  parse_loop (finditer content) 0.

End Parse.

(** *** process_shell_commands

    The [try]/[except] of the loop guards against cells that lack a key
    or hold a value of another type; the record type excludes both. *)

Definition is_bash_cell (c : cell) : bool :=
  String.eqb (cell_type c) "code"
  && match source c with
     | [] => false
     | first :: _ => startswith first "%%bash"
     end.

Definition shell_comment (first_command : string) : string :=
  if startswith first_command "pip" then ln "# Install Python package"
  else if startswith first_command "git" then ln "# Git command"
  else if startswith first_command "python" then ln "# Run Python script"
  else ln "# Shell command".

Definition failure_note : string :=
  NL ++ "# Note: If this command fails, you may need to install dependencies or adjust paths".

Definition enhanced_source (src : list string) : list string :=
  [ln "%%bash"]
  ++ match src with
     | _ :: second :: _ => [shell_comment (strip second)]
     | _ => []
     end
  ++ tl src
  ++ [failure_note].

Definition process_cell (c : cell) : cell :=
  if is_bash_cell c then set_source c (enhanced_source (source c)) else c.

Definition process_shell_commands (cells : list cell) : list cell :=
  map process_cell cells.

(** *** The notebook container *)

Record notebook := mkNotebook {
  cells : list cell;
  nb_metadata : pydict;
  nbformat : nat;
  nbformat_minor : nat
}.

Definition default_metadata : pydict :=
  [("kernelspec",
    PDict [("display_name", PStr "Python 3");
           ("language", PStr "python");
           ("name", PStr "python3")]);
   ("language_info",
    PDict [("codemirror_mode",
            PDict [("name", PStr "ipython"); ("version", PInt 3)]);
           ("file_extension", PStr ".py");
           ("mimetype", PStr "text/x-python");
           ("name", PStr "python");
           ("nbconvert_exporter", PStr "python");
           ("pygments_lexer", PStr "ipython3");
           ("version", PStr "3.12.0")])].

Definition create_notebook (cs : list cell) : notebook :=
  mkNotebook cs default_metadata 4 4.

(** [l.insert(i, x)]: an index past the end appends. *)
Definition insert {A : Type} (i : nat) (x : A) (l : list A) : list A :=
  firstn i l ++ x :: skipn i l.

(** The two fixed cells.  The pictographs of their text lie outside the
    range of code points of the embedding and are kept as their UTF-8
    bytes; no function inspects them. *)
Definition setup_cell : cell :=
  mkCell "code" (Some None) [] (Some [])
    [ln "# Setup and Imports";
     ln "import sys";
     ln "import os";
     ln "from pathlib import Path";
     NL;
     ln "# Enable shell magic for terminal commands";
     ln "# Note: %%bash magic is built into IPython/Jupyter";
     NL;
     ln "# Set up display options";
     ln "from IPython.display import display, HTML";
     NL;
     ln "# Configure notebook for better output";
     ln "import warnings";
     ln "warnings.filterwarnings('ignore')";
     NL;
     "print(" ++ DQ ++ "✅ Notebook setup complete!" ++ DQ ++ ")"].

Definition toc_cell : cell :=
  mkCell "markdown" None [] None
    [ln "# 📚 Mastering New Python Libraries";
     NL;
     ln "## Interactive Notebook Version";
     NL;
     "This notebook contains all the code examples from the README.md file. ";
     ln "You can run each cell interactively to explore Python libraries.";
     NL;
     ln "### How to Use This Notebook:";
     NL;
     ln "1. **Setup Cell**: Run the first cell to configure the environment";
     ln "2. **Code Cells**: Execute Python examples to see them in action";
     ln "3. **Terminal Cells**: Run shell commands with `%%bash` magic";
     ln "4. **Markdown Cells**: Read explanations and documentation";
     NL;
     ln "---"].

Definition set_cells (nb : notebook) (cs : list cell) : notebook :=
  mkNotebook cs (nb_metadata nb) (nbformat nb) (nbformat_minor nb).

(** [notebook['cells'].insert(0, setup_cell)] *)
Definition add_setup_cell (nb : notebook) : notebook :=
  set_cells nb (insert 0 setup_cell (cells nb)).

(** [notebook['cells'].insert(1, toc_cell)] *)
Definition add_toc_cell (nb : notebook) : notebook :=
  set_cells nb (insert 1 toc_cell (cells nb)).

(** The body of [main] between reading the document and writing the
    notebook (lines 361-375); [no_setup] and [no_toc] are the two
    command-line switches. *)
Definition convert (file_path content : string) (no_setup no_toc : bool) : notebook :=
  let cs := parse_markdown_file file_path content in
  let cs := process_shell_commands cs in
  let nb := create_notebook cs in
  let nb := if negb no_setup then add_setup_cell nb else nb in
  let nb := if negb no_toc then add_toc_cell nb else nb in
  nb.

(** The same, starting from a list of cells already produced. *)
Definition assemble (cs : list cell) (no_setup no_toc : bool) : notebook :=
  let nb := create_notebook cs in
  let nb := if negb no_setup then add_setup_cell nb else nb in
  if negb no_toc then add_toc_cell nb else nb.

End Convert.

(** ** The scan seen as a sequence of raw segments

    [parse_markdown_file] never builds the segments as values: a prose
    span is the slice [content[last_end:match.start()]] (or
    [content[last_end:]] after the loop) and a fenced block is a match.
    [raw_segments] lists them in the order the loop meets them. *)

Module Segments.

Import Convert.

Inductive raw_segment :=
| ProseSpan (offset : nat) (text : string)
| FencedBlock (offset : nat) (tag : option string) (body : string).

Definition seg_offset (g : raw_segment) : nat :=
  match g with
  | ProseSpan o _ => o
  | FencedBlock o _ _ => o
  end.

Definition tag_text (tag : option string) : string :=
  match tag with Some w => w | None => EmptyString end.

Fixpoint raw_segments (content : string) (ms : list re_match) (last_end : nat)
  : list raw_segment :=
  match ms with
  | [] => [ProseSpan last_end (drop last_end content)]
  | m :: ms' =>
      ProseSpan last_end (slice content last_end (m_start m))
      :: FencedBlock (m_start m) (group1 m) (group2 m)
      :: raw_segments content ms' (m_end m)
  end.

Definition scan (content : string) : list raw_segment :=
  raw_segments content (finditer content) 0.

(** The text of the document a segment covers: a prose span covers its
    text, a fenced block its two delimiters and its body. *)
Definition covered (g : raw_segment) : string :=
  match g with
  | ProseSpan _ text => text
  | FencedBlock _ tag body => fence ++ tag_text tag ++ NL ++ body ++ fence
  end.

(** The text a segment keeps once stored in a cell: [.strip()] of the
    span or of the body (lines 42 and 52). *)
Definition stored (g : raw_segment) : string :=
  match g with
  | ProseSpan _ text => strip text
  | FencedBlock _ _ body => strip body
  end.

(** The stored text of a segment between the delimiters consumed around
    it. *)
Definition stored_covered (g : raw_segment) : string :=
  match g with
  | ProseSpan _ _ => stored g
  | FencedBlock _ tag _ => fence ++ tag_text tag ++ NL ++ stored g ++ fence
  end.

(** Whether a segment yields a unit: a blank prose span yields none. *)
Definition yields_unit (g : raw_segment) : bool :=
  match g with
  | ProseSpan _ _ => nonempty (stored g)
  | FencedBlock _ _ _ => true
  end.

(** The cells the loop appends for one segment. *)
Definition segment_cells (file_path content : string) (g : raw_segment)
  : list cell :=
  match g with
  | ProseSpan o text => prose_cells file_path content o text
  | FencedBlock o tag body =>
      [block_cell file_path (line_at content o)
         (language_of (mkMatch o o tag body)) (strip body)]
  end.

(** [cell['metadata']['source_line']] *)
Definition source_line (c : cell) : option nat :=
  match lookup "source_line" (metadata c) with
  | Some (PInt n) => Some n
  | _ => None
  end.

(** The offsets of a list of segments that starts at offset [pos] and
    leaves no gap: each segment starts where the text covered by the
    segments before it ends. *)
Fixpoint aligned (pos : nat) (gs : list raw_segment) : Prop :=
  match gs with
  | [] => True
  | g :: gs' => seg_offset g = pos /\ aligned (pos + length (covered g)) gs'
  end.

(** The document rebuilt from what the segments store. *)
Definition stored_concat (content : string) : string :=
  concat "" (map stored_covered (scan content)).

(** The 1-based line of an offset of the document. *)
Definition line_of (content : string) (offset : nat) : nat :=
  count_nl (take offset content) + 1.

End Segments.

(** ** test_code_blocks.py *)

Module CodeBlocks.

Record block := mkBlock {
  language : string;
  code : string;
  start_line : nat
}.

Definition extract_code_blocks (content : string) : list block :=
  map (fun m =>
         mkBlock
           (lower (match group1 m with
                   | Some w => if nonempty w then w else "text"
                   | None => "text"
                   end))
           (strip (group2 m))
           (count_nl (take (m_start m) content) + 1))
      (finditer content).

(** The body of the loop of lines 52-65; [python_lines] is the list the
    loop appends to. *)
Definition prompt_step (python_lines : list string) (line : string)
  : list string :=
  let line := strip line in
  if startswith line ">>> " then python_lines ++ [drop 4 line]
  else if startswith line "... " then python_lines ++ [drop 4 line]
  else if startswith line "..." then python_lines ++ [drop 3 line]
  else if nonempty line && negb (startswith line ">>>")
          && negb (startswith line "...")
       then python_lines ++ [line]
  else python_lines.

(** Lines 47-68: the code once the prompts are handled. *)
Definition strip_prompts (code : string) : string :=
  if contains ">>>" code || contains "..." code
  then join NL (fold_left prompt_step (split_nl code) [])
  else code.

(** The text handed to [ast.parse]; [None] when the block is skipped as
    empty (line 71). *)
Definition submitted (code : string) : option string :=
  let code := strip_prompts code in
  if negb (nonempty (strip code)) then None else Some code.

Inductive parse_outcome :=
| Parsed
| SyntaxError (msg : string) (lineno : option nat)
| OtherError (msg : string).

Definition show_lineno (l : option nat) : string :=
  match l with Some n => str_of_nat n | None => "None" end.

Section Validator.

Variable ast_parse : string -> parse_outcome.

Definition validate_python_syntax (code context : string) : bool * string :=
  match submitted code with
  | None => (true, EmptyString)
  | Some code =>
      match ast_parse code with
      | Parsed => (true, EmptyString)
      | SyntaxError msg lineno =>
          (false, "Syntax error in " ++ context ++ ": " ++ msg
                  ++ " at line " ++ show_lineno lineno)
      | OtherError msg =>
          (false, "Unexpected error in " ++ context ++ ": " ++ msg)
      end
  end.

End Validator.



(** What one line of the body contributes to the text handed to the
    parser. *)
Definition kept_line (line : string) : list string :=
  let t := strip line in
  if startswith t ">>> " then [drop 4 t]
  else if startswith t "... " then [drop 4 t]
  else if startswith t "..." then [drop 3 t]
  else if nonempty t && negb (startswith t ">>>") then [t]
  else [].

End CodeBlocks.

(** ** validate_notebook.py *)

Module Validate.

(** [cell.source] is a string or a list of lines. *)
Inductive nsource :=
| SrcStr (s : string)
| SrcLines (ls : list string).

Record output := mkOutput {
  output_type : string;
  ename : string;
  evalue : string;
  traceback : option (list string)
}.

Record ncell := mkNcell {
  cell_type : string;
  source : nsource;
  source_anchor : option string;
  execution_count : option nat;
  outputs : list output
}.

Definition problematic_cells : list string :=
  ["README.md:216"; "README.md:301"; "README.md:488";
   "README.md:541"; "README.md:559"; "README.md:650"].

(** ['needle' in cell.source], or [any('needle' in str(line) ...)]. *)
Definition mentions (needle : string) (src : nsource) : bool :=
  match src with
  | SrcStr s => contains needle s
  | SrcLines ls => existsb (contains needle) ls
  end.

Definition is_problematic (c : ncell) : bool :=
  match source_anchor c with
  | Some anchor => existsb (fun problem => contains problem anchor) problematic_cells
  | None => false
  end.

(** Lines 55-93: whether the filter drops the cell. *)
Definition skipped (c : ncell) : bool :=
  String.eqb (cell_type c) "code"
  && (mentions "%%bash" (source c) || mentions "pkg_resources" (source c)
      || mentions "import mcp" (source c) || is_problematic c).

Definition filtered_cells (cs : list ncell) : list ncell :=
  filter (fun c => negb (skipped c)) cs.

(** An exception value, and the way a call ends. *)
Definition exn := string.

Inductive result (A : Type) :=
| Ok (a : A)
| Raised (e : exn).
Arguments Ok {A} a.
Arguments Raised {A} e.

(** What the validator prints. *)
Inductive event :=
| ExecutedOk
| ExecutionFailed (e : exn)
| CellError (index : nat) (anchor : string) (name value : string)
            (tb : option (list string)) (preview : string).

(** A computation that prints and then returns or raises. *)
Definition M (A : Type) : Type := list event * result A.

Definition ret {A} (a : A) : M A := ([], Ok a).
Definition print (ev : event) : M unit := ([ev], Ok tt).
Definition bind {A B} (m : M A) (k : A -> M B) : M B :=
  match m with
  | (log, Ok a) => let (log', r) := k a in ((log ++ log')%list, r)
  | (log, Raised e) => (log, Raised e)
  end.
(** [try: body except Exception as e: handler] *)
Definition try_except {A} (body : M A) (handler : exn -> M A) : M A :=
  match body with
  | (log, Ok a) => (log, Ok a)
  | (log, Raised e) => let (log', r) := handler e in ((log ++ log')%list, r)
  end.

Notation "x <- m ;; k" := (bind m (fun x => k))
  (at level 61, m at next level, right associativity).
Notation "m ;;; k" := (bind m (fun _ => k))
  (at level 61, right associativity).

(** [any('%%bash' in str(line) for line in orig_cell.source)]: a string
    source is iterated character by character, and no single character
    contains the marker. *)
Definition any_line_bash (src : nsource) : bool :=
  match src with
  | SrcStr s => false
  | SrcLines ls => existsb (contains "%%bash") ls
  end.

Definition nsource_eqb (a b : nsource) : bool :=
  match a, b with
  | SrcStr x, SrcStr y => String.eqb x y
  | SrcLines x, SrcLines y =>
      (fix eqs (x y : list string) : bool :=
         match x, y with
         | [], [] => true
         | u :: x', v :: y' => String.eqb u v && eqs x' y'
         | _, _ => false
         end) x y
  | _, _ => false
  end.

(** Lines 127-134: the first original code cell without the shell
    marker whose source equals that of the failing cell. *)
Fixpoint find_original (j : nat) (orig : list ncell) (c : ncell)
  : option (nat * ncell) :=
  match orig with
  | [] => None
  | o :: rest =>
      if String.eqb (cell_type o) "code" && negb (any_line_bash (source o))
         && nsource_eqb (source o) (source c)
      then Some (j, o)
      else find_original (S j) rest c
  end.

Definition preview_of (src : nsource) : string :=
  match src with
  | SrcStr s => take 100 s
  | SrcLines ls => join EmptyString (firstn 3 ls)
  end.

(** Lines 136-139 *)
Definition anchor_for (orig : list ncell) (i : nat) (c : ncell) : string :=
  match find_original 0 orig c with
  | Some (j, o) =>
      match source_anchor o with
      | Some a => a
      | None => "cell " ++ str_of_nat j
      end
  | None => "cell " ++ str_of_nat i
  end.

(** Lines 120-152: the report on the cells that hold an error output. *)
Fixpoint error_report (orig : list ncell) (i : nat) (executed : list ncell)
  : list event :=
  match executed with
  | [] => []
  | c :: rest =>
      (if String.eqb (cell_type c) "code"
          && match execution_count c with Some _ => true | None => false end
       then
         map (fun o => CellError (i + 1) (anchor_for orig i c)
                         (ename o) (evalue o) (traceback o)
                         (preview_of (source c)))
             (filter (fun o => String.eqb (output_type o) "error") (outputs c))
       else [])
      ++ error_report orig (S i) rest
  end.

Section Run.

(** [ep.preprocess(test_notebook, ...)]: it updates the cells of the
    notebook in place, and returns or raises. *)
Variable preprocess : list ncell -> list ncell * result unit.

Definition run_preprocess (test_cells : list ncell) : M (list ncell) :=
  let (after, r) := preprocess test_cells in
  match r with
  | Ok _ => ([], Ok after)
  | Raised e => ([], Raised e)
  end.

(** Lines 104-154, from the cells of the loaded notebook. *)
Definition validate_notebook (notebook_cells : list ncell) : M bool :=
  let test_cells := filtered_cells notebook_cells in
  try_except
    (run_preprocess test_cells ;;;
     print ExecutedOk ;;;
     ret true)
    (fun e =>
       print (ExecutionFailed e) ;;;
       (error_report notebook_cells 0 (fst (preprocess test_cells)), Ok tt) ;;;
       ret false).

End Run.

End Validate.

(** ** What a match of the pattern is *)

Module Matches.

Fixpoint all_word (s : string) : bool :=
  match s with
  | EmptyString => true
  | String c s' => isword c && all_word s'
  end.

(** [group(1)] of a match: [None], or a non-empty run of word
    characters. *)
Definition tag_ok (g1 : option string) : bool :=
  match g1 with
  | None => true
  | Some w => nonempty w && all_word w
  end.

(** The match [m] is an occurrence of the pattern in [content]: the text
    between its offsets is its [group(0)], the tag is a run of word
    characters and the body holds no fence. *)
Definition occurrence (content : string) (m : re_match) : Prop :=
  m_start m < m_end m
  /\ m_end m <= length content
  /\ slice content (m_start m) (m_end m) = group0 m
  /\ tag_ok (group1 m) = true
  /\ contains fence (group2 m) = false.

(** The matches [ms] are the leftmost non-overlapping ones from offset
    [last_end] on: no offset before a match, or after the last one,
    starts a match, and each match is the one the pattern has at its
    start. *)
Fixpoint leftmost (content : string) (last_end : nat) (ms : list re_match)
  : Prop :=
  match ms with
  | [] => forall i, last_end <= i -> match_here (drop i content) = None
  | m :: ms' =>
      last_end <= m_start m
      /\ (forall i, last_end <= i -> i < m_start m ->
                    match_here (drop i content) = None)
      /\ match_here (drop (m_start m) content)
         = Some (group1 m, group2 m, drop (m_end m) content)
      /\ leftmost content (m_end m) ms'
  end.

End Matches.

(** ** Cells and their origin *)

Module Origin.

Import Convert.

(** A cell that carries the source anchor of line [line] of
    [file_path]: in its metadata and as its first source line, with the
    keys of its cell type. *)
Definition anchored_at (file_path : string) (line : nat) (c : cell) : Prop :=
  metadata c = source_metadata file_path line
  /\ ((cell_type c = "markdown" /\ execution_count c = None
       /\ outputs c = None
       /\ exists rest, source c = html_anchor file_path line :: rest)
      \/ (cell_type c = "code" /\ execution_count c = Some None
          /\ outputs c = Some []
          /\ exists rest, source c = code_anchor file_path line :: rest)).

(** Whether a cell has metadata: the cells made from the document do,
    the two fixed cells do not. *)
Definition has_metadata (c : cell) : bool :=
  match metadata c with
  | [] => false
  | _ :: _ => true
  end.

(** [sum(1 for cell in notebook['cells'] if cell['cell_type'] == t)]
    (lines 384-385 of [main]). *)
Definition count_type (t : string) (cs : list cell) : nat :=
  List.length (filter (fun c => String.eqb (cell_type c) t) cs).

End Origin.

(** ** test_code_blocks.py: the two reports *)

Module Report.

Import CodeBlocks.

(** [list(enumerate(l))] *)
Definition enumerate {A : Type} (l : list A) : list (nat * A) :=
  combine (seq 0 (List.length l)) l.

(** [code[:100] + "..." if len(code) > 100 else code] *)
Definition preview (code : string) : string :=
  if Nat.ltb 100 (length code) then take 100 code ++ "..." else code.

Record syntax_error := mkSyntaxError {
  err_block : nat;
  err_line : option nat;
  err_text : string;
  err_preview : string
}.

(** The dictionary [results] of [test_code_blocks]. *)
Record results := mkResults {
  total_blocks : nat;
  python_blocks : nat;
  syntax_errors : list syntax_error;
  valid_blocks : nat
}.

(** The dictionary [results] of [test_notebook_cells]. *)
Record nb_results := mkNbResults {
  total_cells : nat;
  code_cells : nat;
  markdown_cells : nat;
  nb_syntax_errors : list syntax_error;
  shell_commands : nat
}.

Section Checks.

Variable ast_parse : string -> parse_outcome.

Definition context_of (i : nat) (b : block) : string :=
  "block " ++ str_of_nat (i + 1) ++ " (line " ++ str_of_nat (start_line b) ++ ")".

(** Lines 101-115: one turn of the loop over the python blocks. *)
Definition check_block (r : results) (ib : nat * block) : results :=
  let (i, b) := ib in
  let (is_valid, error) :=
    validate_python_syntax ast_parse (code b) (context_of i b) in
  if is_valid then
    mkResults (total_blocks r) (python_blocks r) (syntax_errors r)
      (valid_blocks r + 1)
  else
    mkResults (total_blocks r) (python_blocks r)
      (syntax_errors r
         ++ [mkSyntaxError (i + 1) (Some (start_line b)) error (preview (code b))])
      (valid_blocks r).

Definition is_python_block (b : block) : bool :=
  in_list (language b) ["python"; "py"].

(** Lines 89-117, from the text of the file. *)
Definition test_code_blocks (content : string) : results :=
  let blocks := extract_code_blocks content in
  let python_blocks := filter is_python_block blocks in
  fold_left check_block (enumerate python_blocks)
    (mkResults (List.length blocks) (List.length python_blocks) [] 0).

(** Lines 152-177: one turn of the loop over the cells of a notebook. *)
Definition check_cell (r : nb_results) (ic : nat * Convert.cell) : nb_results :=
  let (i, cell) := ic in
  if String.eqb (Convert.cell_type cell) "code" then
    let source := join "" (Convert.source cell) in
    if startswith source "%%bash" then
      mkNbResults (total_cells r) (code_cells r + 1) (markdown_cells r)
        (nb_syntax_errors r) (shell_commands r + 1)
    else
      let (is_valid, error) :=
        validate_python_syntax ast_parse source ("cell " ++ str_of_nat (i + 1)) in
      if is_valid then
        mkNbResults (total_cells r) (code_cells r + 1) (markdown_cells r)
          (nb_syntax_errors r) (shell_commands r)
      else
        mkNbResults (total_cells r) (code_cells r + 1) (markdown_cells r)
          (nb_syntax_errors r
             ++ [mkSyntaxError (i + 1) None error (preview source)])
          (shell_commands r)
  else if String.eqb (Convert.cell_type cell) "markdown" then
    mkNbResults (total_cells r) (code_cells r) (markdown_cells r + 1)
      (nb_syntax_errors r) (shell_commands r)
  else r.

(** Lines 138-188, from the cells of the loaded notebook. *)
Definition test_notebook_cells (cs : list Convert.cell) : nb_results :=
  fold_left check_cell (enumerate cs)
    (mkNbResults (List.length cs) 0 0 [] 0).

End Checks.

End Report.

(** ** The earlier converter, src/convert_to_notebook.py

    Its cells carry no anchor and no metadata, and their source lines
    are the lines of the text without a newline added.  Its
    [process_shell_commands] has the body of the later one, which is
    reused. *)

Module Legacy.

Import Convert.

Definition markdown_cell (src : list string) : cell :=
  mkCell "markdown" None [] None src.
Definition code_cell (src : list string) : cell :=
  mkCell "code" (Some None) [] (Some []) src.

(** [match.group(1) or 'text'] *)
Definition language_of (m : re_match) : string :=
  match group1 m with
  | Some w => if nonempty w then w else "text"
  | None => "text"
  end.

(** Lines 45-68 *)
Definition block_cell (language code_content : string) : cell :=
  if in_list (lower language) python_tags then
    code_cell (split_nl code_content)
  else if in_list (lower language) shell_tags then
    code_cell (ln "%%bash" :: split_nl code_content)
  else
    markdown_cell [ln ("```" ++ language) ++ code_content ++ NL ++ "```"].

Definition prose_cells (span : string) : list cell :=
  let markdown_content := strip span in
  if nonempty markdown_content
  then [markdown_cell (split_nl markdown_content)]
  else [].

Fixpoint parse_loop (content : string) (ms : list re_match) (last_end : nat)
  : list cell :=
  match ms with
  | [] => prose_cells (drop last_end content)
  | m :: ms' =>
      prose_cells (slice content last_end (m_start m))
      ++ block_cell (language_of m) (strip (group2 m))
      :: parse_loop content ms' (m_end m)
  end.

Definition parse_markdown_file (content : string) : list cell :=
  parse_loop content (finditer content) 0.

End Legacy.

(** ** Order of a filtered list *)

Module Order.

(** [l] is [l'] with some elements left out, the others in their
    order. *)
Inductive subsequence {A : Type} : list A -> list A -> Prop :=
| sub_nil : subsequence [] []
| sub_drop (x : A) (l l' : list A) :
    subsequence l l' -> subsequence l (x :: l')
| sub_keep (x : A) (l l' : list A) :
    subsequence l l' -> subsequence (x :: l) (x :: l').

End Order.

(** * Properties *)

Import Convert Segments.

(** ** Strings *)

Section StringFacts.

Lemma append_nil_r (s : string) : s ++ "" = s.
Proof. induction s as [|c s IH]; simpl; [reflexivity | now rewrite IH]. Qed.

Lemma append_assoc (a b c : string) : (a ++ b) ++ c = a ++ (b ++ c).
Proof. induction a as [|x a IH]; simpl; [reflexivity | now rewrite IH]. Qed.

Lemma length_append (a b : string) : length (a ++ b) = length a + length b.
Proof. induction a as [|x a IH]; simpl; [reflexivity | now rewrite IH]. Qed.

Lemma take_drop (n : nat) (s : string) : take n s ++ drop n s = s.
Proof.
  revert s; induction n as [|n IH]; intros [|c s]; simpl; try reflexivity.
  now rewrite IH.
Qed.

Lemma drop_0 (s : string) : drop 0 s = s.
Proof. reflexivity. Qed.

Lemma drop_drop (a b : nat) (s : string) : drop a (drop b s) = drop (b + a) s.
Proof.
  revert s; induction b as [|b IH]; intros s; simpl; [reflexivity|].
  destruct s as [|c s]; [now destruct a | apply IH].
Qed.

Lemma drop_append_length (a b : string) : drop (length a) (a ++ b) = b.
Proof. induction a as [|x a IH]; simpl; [reflexivity | exact IH]. Qed.

Lemma drop_String (n : nat) (s : string) (c : ascii) (s' : string) :
  drop n s = String c s' -> drop (S n) s = s'.
Proof.
  intros H. replace (S n) with (n + 1) by lia.
  now rewrite <- drop_drop, H.
Qed.

Lemma length_drop (n : nat) (s : string) : length (drop n s) = length s - n.
Proof.
  revert s; induction n as [|n IH]; intros [|c s]; simpl; try reflexivity.
  apply IH.
Qed.

(** [content[a:b] + content[b:] == content[a:]] when [a <= b]. *)
Lemma slice_drop (s : string) (a b : nat) :
  a <= b -> slice s a b ++ drop b s = drop a s.
Proof.
  intros Hab. unfold slice.
  replace (drop b s) with (drop (b - a) (drop a s)).
  - apply take_drop.
  - rewrite drop_drop. f_equal. lia.
Qed.

Lemma prefix_nil (s : string) : prefix "" s = true.
Proof. now destruct s. Qed.

Lemma prefix_split (p s : string) :
  prefix p s = true -> s = p ++ drop (length p) s.
Proof.
  revert s; induction p as [|x p IH]; intros [|c s] H; simpl in *;
    try reflexivity; try discriminate.
  destruct (ascii_dec x c) as [->|]; [|discriminate].
  f_equal. now apply IH.
Qed.

Lemma prefix_append (p a r : string) :
  prefix p a = true -> prefix p (a ++ r) = true.
Proof.
  revert a; induction p as [|x p IH]; intros [|c a] H; simpl in *;
    try discriminate.
  - apply prefix_nil.
  - reflexivity.
  - destruct (ascii_dec x c); [now apply IH | discriminate].
Qed.

Lemma contains_nil (s : string) : contains "" s = true.
Proof. destruct s; reflexivity. Qed.

Lemma contains_cons (p : string) (c : ascii) (s : string) :
  contains p s = true -> contains p (String c s) = true.
Proof.
  intros H. change (prefix p (String c s) || contains p s = true).
  rewrite H. apply orb_true_r.
Qed.

Lemma contains_prefix (p s : string) :
  prefix p s = true -> contains p s = true.
Proof.
  intros H. destruct s; simpl in *; rewrite H; reflexivity.
Qed.

(** The first line of a text is a prefix of the text. *)
Lemma split_nl_head (s l : string) (ls : list string) :
  split_nl s = l :: ls -> exists r, s = l ++ r.
Proof.
  revert l ls; induction s as [|c s IH]; intros l ls H; simpl in H.
  - injection H as <- _. now exists "".
  - destruct (Ascii.eqb c nl).
    + injection H as <- _. now exists (String c s).
    + destruct (split_nl s) as [|l0 ls0] eqn:E.
      * injection H as <- _. exists s. reflexivity.
      * injection H as <- _. destruct (IH l0 ls0 eq_refl) as [r ->].
        now exists r.
Qed.

Lemma split_nl_nonempty (s : string) : split_nl s <> [].
Proof.
  destruct s as [|c s]; simpl; [discriminate|].
  destruct (Ascii.eqb c nl); [discriminate|].
  destruct (split_nl s); discriminate.
Qed.

(** A text one of whose lines starts with [p] contains [p]. *)
Lemma line_prefix_contains (p s : string) :
  existsb (fun line => startswith line p) (split_nl s) = true ->
  contains p s = true.
Proof.
  unfold startswith.
  induction s as [|c s IH]; simpl split_nl; intros H.
  - simpl in H. rewrite orb_false_r in H. now apply contains_prefix.
  - destruct (Ascii.eqb c nl).
    + simpl in H. apply orb_true_iff in H as [H|H].
      * destruct p; [apply contains_nil | discriminate].
      * apply contains_cons, IH, H.
    + destruct (split_nl s) as [|l ls] eqn:E.
      * now destruct (split_nl_nonempty s).
      * simpl in H. apply orb_true_iff in H as [H|H].
        -- destruct (split_nl_head s l ls E) as [r ->].
           apply contains_prefix.
           change (String c (l ++ r)) with (String c l ++ r).
           now apply prefix_append.
        -- apply contains_cons, IH. simpl. rewrite H. apply orb_true_r.
Qed.

Lemma count_nl_append (a b : string) :
  count_nl (a ++ b) = count_nl a + count_nl b.
Proof. induction a as [|x a IH]; simpl; [reflexivity | rewrite IH; lia]. Qed.

(** The line number of an offset grows with the offset. *)
Lemma count_nl_take_mono (s : string) (a b : nat) :
  a <= b -> count_nl (take a s) <= count_nl (take b s).
Proof.
  revert a b; induction s as [|c s IH]; intros a b Hab.
  - destruct a, b; simpl; lia.
  - destruct a as [|a]; [simpl; lia|].
    destruct b as [|b]; [lia|]. simpl.
    specialize (IH a b ltac:(lia)). lia.
Qed.

End StringFacts.

(** ** The scanner *)

Section ScannerFacts.

Lemma span_word_split (s w r : string) : span_word s = (w, r) -> s = w ++ r.
Proof.
  revert w r; induction s as [|c s IH]; intros w r H; simpl in H.
  - now injection H as <- <-.
  - destruct (isword c).
    + destruct (span_word s) as [w' r'] eqn:E. injection H as <- <-.
      simpl. f_equal. now apply IH.
    + now injection H as <- <-.
Qed.

Lemma find_fence_split (s b r : string) :
  find_fence s = Some (b, r) -> s = b ++ fence ++ r.
Proof.
  revert b r; induction s as [|c s IH]; intros b r H.
  - discriminate.
  - cbn [find_fence] in H. destruct (prefix fence (String c s)) eqn:P.
    + injection H as <- <-. apply (prefix_split fence _ P).
    + destruct (find_fence s) as [[b' r']|] eqn:E; [|discriminate].
      injection H as <- <-. simpl. f_equal. now apply IH.
Qed.

Lemma tag_text_group (w : string) :
  tag_text (if nonempty w then Some w else None) = w.
Proof. now destruct w. Qed.

(** A match at the head of [s] covers a fence, the tag, a newline, the
    body and a fence. *)
Lemma match_here_split (s : string) (g1 : option string) (g2 rest : string) :
  match_here s = Some (g1, g2, rest) ->
  s = (fence ++ tag_text g1 ++ NL ++ g2 ++ fence) ++ rest.
Proof.
  unfold match_here. intros H.
  destruct (prefix fence s) eqn:P; [|discriminate].
  destruct (span_word (drop 3 s)) as [w r] eqn:W.
  destruct r as [|c r']; [discriminate|].
  destruct (Ascii.eqb c nl) eqn:C; [|discriminate].
  destruct (find_fence r') as [[b rest']|] eqn:F; [|discriminate].
  injection H as <- <- <-.
  apply Ascii.eqb_eq in C. subst c.
  rewrite tag_text_group, (prefix_split fence s P).
  change (length fence) with 3.
  rewrite (span_word_split _ _ _ W), (find_fence_split _ _ _ F).
  unfold NL. rewrite !append_assoc. reflexivity.
Qed.

Lemma match_here_nil : match_here "" = None.
Proof. reflexivity. Qed.

Lemma match_here_length (s : string) (g1 : option string) (g2 rest : string) :
  match_here s = Some (g1, g2, rest) ->
  length s = length (fence ++ tag_text g1 ++ NL ++ g2 ++ fence) + length rest
  /\ length rest < length s.
Proof.
  intros H. pose proof (match_here_split _ _ _ _ H) as E.
  apply (f_equal length) in E. rewrite length_append in E.
  split; [exact E|]. rewrite E. simpl. lia.
Qed.

(** [length s] steps are enough: more fuel changes nothing. *)
Lemma finditer_from_fuel (f1 f2 pos : nat) (s : string) :
  length s <= f1 -> length s <= f2 ->
  finditer_from f1 pos s = finditer_from f2 pos s.
Proof.
  revert f2 pos s; induction f1 as [|f1 IH]; intros [|f2] pos s H1 H2;
    try reflexivity;
    try (destruct s; [reflexivity | simpl in *; lia]).
  cbn [finditer_from].
  destruct (match_here s) as [[[g1 g2] rest]|] eqn:E.
  - apply match_here_length in E as [_ E]. f_equal. apply IH; lia.
  - destruct s as [|c s]; [reflexivity|]. simpl in *. apply IH; lia.
Qed.

(** The recursion of the scan, free of its fuel: a match at the current
    offset is taken and the scan resumes after it; otherwise the scan
    moves one character on. *)
Lemma finditer_from_unfold (pos : nat) (s : string) :
  finditer_from (length s) pos s =
  match match_here s with
  | Some (g1, g2, rest) =>
      let e := pos + (length s - length rest) in
      mkMatch pos e g1 g2 :: finditer_from (length rest) e rest
  | None =>
      match s with
      | EmptyString => []
      | String _ s' => finditer_from (length s') (S pos) s'
      end
  end.
Proof.
  destruct s as [|c s].
  - reflexivity.
  - cbn [length finditer_from].
    destruct (match_here (String c s)) as [[[g1 g2] rest]|] eqn:E.
    + apply match_here_length in E as [_ E]. cbn [length] in E.
      cbv zeta. f_equal. apply finditer_from_fuel; lia.
    + reflexivity.
Qed.

End ScannerFacts.

(** ** Segments: partition and offsets *)

Section SegmentFacts.

Lemma length_take_le (n : nat) (s : string) :
  n <= length s -> length (take n s) = n.
Proof.
  revert s; induction n as [|n IH]; intros [|c s] H; simpl in *;
    try reflexivity; try lia.
  f_equal. apply IH. lia.
Qed.

Lemma length_slice (s : string) (a b : nat) :
  a <= b -> b <= length s -> length (slice s a b) = b - a.
Proof.
  intros Hab Hb. unfold slice. apply length_take_le.
  rewrite length_drop. lia.
Qed.

Lemma concat_cons (x : string) (xs : list string) :
  concat "" (x :: xs) = x ++ concat "" xs.
Proof. destruct xs; simpl; [now rewrite append_nil_r | reflexivity]. Qed.

Variable content : string.

(** The invariant of the scan: from offset [pos] on, with [last_end] the
    end of the last match, the segments cover [content[last_end:]] and
    leave no gap. *)
Lemma raw_segments_inv (fuel pos : nat) (s : string) (last_end : nat) :
  drop pos content = s ->
  pos + length s = length content ->
  last_end <= pos ->
  concat "" (map covered (raw_segments content (finditer_from fuel pos s) last_end))
    = drop last_end content
  /\ aligned last_end (raw_segments content (finditer_from fuel pos s) last_end).
Proof.
  revert pos s last_end.
  induction fuel as [|fuel IH]; intros pos s last_end Hs Hlen Hle.
  - simpl. auto.
  - cbn [finditer_from].
    destruct (match_here s) as [[[g1 g2] rest]|] eqn:E.
    + pose proof (match_here_split _ _ _ _ E) as Hsplit.
      pose proof (match_here_length _ _ _ _ E) as [Hl _].
      set (cov := fence ++ tag_text g1 ++ NL ++ g2 ++ fence) in *.
      assert (He : pos + (length s - length rest) = pos + length cov) by lia.
      cbv zeta. rewrite He.
      assert (Hrest : drop (pos + length cov) content = rest).
      { rewrite <- drop_drop, Hs, Hsplit. apply drop_append_length. }
      destruct (IH (pos + length cov) rest (pos + length cov) Hrest
                  ltac:(lia) (le_n _)) as [IHc IHa].
      cbn [raw_segments m_start m_end group1 group2 map].
      rewrite !concat_cons. cbn [covered]. fold cov.
      rewrite IHc, Hrest, <- Hsplit, <- Hs. split.
      * apply slice_drop, Hle.
      * cbn [aligned seg_offset covered]. fold cov.
        rewrite length_slice by lia.
        replace (last_end + (pos - last_end)) with pos by lia.
        auto.
    + destruct s as [|c s'].
      * simpl. auto.
      * apply (IH (S pos) s' last_end).
        -- now apply drop_String with (c := c).
        -- simpl in Hlen. lia.
        -- lia.
Qed.

Lemma scan_inv :
  concat "" (map covered (scan content)) = content
  /\ aligned 0 (scan content).
Proof.
  unfold scan, finditer.
  destruct (raw_segments_inv (length content) 0 content 0 eq_refl eq_refl (le_n _))
    as [Hc Ha].
  now rewrite Hc.
Qed.

(** The cells of the loop are the cells of its segments, in order. *)
Lemma parse_loop_segments (file_path : string) (ms : list re_match) (last_end : nat) :
  parse_loop file_path content ms last_end
  = flat_map (segment_cells file_path content) (raw_segments content ms last_end).
Proof.
  revert last_end; induction ms as [|m ms IH]; intros last_end.
  - simpl. now rewrite app_nil_r.
  - cbn [parse_loop raw_segments flat_map]. rewrite IH. reflexivity.
Qed.

Lemma source_line_block_cell (file_path : string) (line : nat) (language body : string) :
  source_line (block_cell file_path line language body) = Some line.
Proof.
  unfold block_cell.
  destruct (in_list (lower language) python_tags);
    [destruct (contains ">>>" body)
    | destruct (in_list (lower language) shell_tags || contains "$" body)];
    reflexivity.
Qed.

Lemma source_line_segment_cells (file_path : string) (g : raw_segment) :
  map source_line (segment_cells file_path content g)
  = if yields_unit g then [Some (line_of content (seg_offset g))] else [].
Proof.
  destruct g as [o text | o tag body]; simpl.
  - unfold prose_cells. destruct (nonempty (strip text)); reflexivity.
  - now rewrite source_line_block_cell.
Qed.

Lemma line_of_mono (a b : nat) : a <= b -> line_of content a <= line_of content b.
Proof.
  intros H. unfold line_of. pose proof (count_nl_take_mono content a b H). lia.
Qed.

Lemma aligned_lines_sorted (pos : nat) (gs : list raw_segment) :
  aligned pos gs ->
  Forall (fun g => pos <= seg_offset g) gs
  /\ StronglySorted le
       (map (fun g => line_of content (seg_offset g)) (filter yields_unit gs)).
Proof.
  revert pos; induction gs as [|g gs IH]; intros pos H.
  - split; constructor.
  - destruct H as [Hg Hgs]. destruct (IH _ Hgs) as [Hall Hsorted].
    assert (Hall' : Forall (fun g' => pos <= seg_offset g') gs).
    { eapply Forall_impl; [|exact Hall]. simpl. intros; lia. }
    split.
    + constructor; [lia | exact Hall'].
    + cbn [filter]. destruct (yields_unit g); [|exact Hsorted].
      cbn [map]. constructor; [exact Hsorted|].
      apply Forall_forall. intros l Hl.
      apply in_map_iff in Hl as [g' [<- Hin]].
      apply filter_In in Hin as [Hin _].
      rewrite Forall_forall in Hall'.
      apply line_of_mono. rewrite Hg. now apply Hall'.
Qed.

End SegmentFacts.

(** ** The block classifier *)

Section ClassifierFacts.

Lemma shell_tag_not_python (language : string) :
  is_shell_tag language = true -> is_python_tag language = false.
Proof.
  unfold is_shell_tag, is_python_tag, in_list, shell_tags, python_tags.
  cbn [existsb]. rewrite !orb_false_r, !orb_true_iff.
  intros [H|[H|[H|H]]]; apply String.eqb_eq in H; rewrite H; reflexivity.
Qed.

(** C1 (as stated, refuted): with the marker read as the
    specification defines it, a line that begins with a prompt, a
    python-tagged body that holds no such line is classified
    [Markdown], not [Code], when the three characters of the prompt occur
    inside a line; and a py-tagged body with a line that begins with the
    continuation prompt is classified [Code], not [Markdown]. *)
Lemma marker_rules_fail_on_python_blocks :
  is_python_tag "python" = true
  /\ has_prompt_line "arrow = '>>>'" = false
  /\ classify "python" "arrow = '>>>'" = Markdown
  /\ is_python_tag "py" = true
  /\ existsb (fun line => startswith line "...")
             (split_nl ("def f():" ++ NL ++ "...     return 1"))
     = true
  /\ classify "py" ("def f():" ++ NL ++ "...     return 1") = Code.
Proof. repeat split. Qed.

(** C1 (amended): the classifier is a total function of (tag, body)
    that applies five rules in order: a python/py tag gives [Code] when
    the body does not contain the three characters of the prompt
    anywhere and [Markdown] when it does, in particular when one of its
    lines begins with them; a bash/shell/sh/zsh tag gives [Shell]; any
    other tag, or none, gives [Shell] when the body holds a dollar sign
    and [Markdown] otherwise.  Exactly one kind comes out, and the cell
    emitted for the block is the one of its kind: for [Code] a code cell
    with the anchor, the synthesized lines and the body, for [Shell] a
    code cell with the anchor, the shell marker and the body, for
    [Markdown] a markdown cell with the anchor and the fenced body. *)
Theorem classify_rules_by_substring
        (file_path : string) (line : nat) (language body : string) :
  (is_python_tag language = true -> contains ">>>" body = false ->
   classify language body = Code)
  /\ (is_python_tag language = true -> contains ">>>" body = true ->
      classify language body = Markdown)
  /\ (is_python_tag language = true -> has_prompt_line body = true ->
      classify language body = Markdown)
  /\ (is_shell_tag language = true -> classify language body = Shell)
  /\ (is_python_tag language = false -> is_shell_tag language = false ->
      contains "$" body = true -> classify language body = Shell)
  /\ (is_python_tag language = false -> is_shell_tag language = false ->
      contains "$" body = false -> classify language body = Markdown)
  /\ (classify language body = Code \/ classify language body = Shell
      \/ classify language body = Markdown)
  /\ block_cell file_path line language body
     = match classify language body with
       | Code =>
           code_cell file_path line
             (code_anchor file_path line
                :: import_lines body
                ++ (if contains "pkg_resources" body
                    then modified_lines false (split_nl body)
                    else lines_nl body))
       | Shell =>
           code_cell file_path line
             (code_anchor file_path line :: ln "%%bash" :: lines_nl body)
       | Markdown =>
           markdown_cell file_path line
             [html_anchor file_path line;
              ln ("```" ++ (if is_python_tag language then "python" else language))
                 ++ body ++ NL ++ "```"]
       end.
Proof.
  split; [|split; [|split; [|split; [|split; [|split; [|split]]]]]].
  - unfold classify. now intros -> ->.
  - unfold classify. now intros -> ->.
  - unfold classify. intros -> H.
    now rewrite (line_prefix_contains ">>>" body H).
  - unfold classify. intros H. now rewrite (shell_tag_not_python _ H), H.
  - unfold classify. now intros -> -> ->.
  - unfold classify. now intros -> -> ->.
  - unfold classify.
    destruct (is_python_tag language); [destruct (contains ">>>" body)|
      destruct (is_shell_tag language || contains "$" body)]; auto.
  - unfold classify, block_cell, is_python_tag, is_shell_tag.
    destruct (in_list (lower language) python_tags);
      [destruct (contains ">>>" body)
      | destruct (in_list (lower language) shell_tags || contains "$" body)];
      reflexivity.
Qed.

Lemma classify_rules_by_substring_witness :
  classify "Python" "print(1)" = Code
  /\ classify "py" ">>> 1 + 1" = Markdown
  /\ classify "bash" "ls" = Shell
  /\ classify "" "$ ls -la" = Shell
  /\ classify "text" "hello" = Markdown.
Proof.
  split; [|split; [|split; [|split]]].
  - apply (proj1 (classify_rules_by_substring "" 1 "Python" "print(1)"));
      reflexivity.
  - apply (proj1 (proj2 (proj2
             (classify_rules_by_substring "" 1 "py" ">>> 1 + 1"))));
      reflexivity.
  - apply (proj1 (proj2 (proj2 (proj2
             (classify_rules_by_substring "" 1 "bash" "ls")))));
      reflexivity.
  - apply (proj1 (proj2 (proj2 (proj2 (proj2
             (classify_rules_by_substring "" 1 "" "$ ls -la"))))));
      reflexivity.
  - apply (proj1 (proj2 (proj2 (proj2 (proj2 (proj2
             (classify_rules_by_substring "" 1 "text" "hello")))))));
      reflexivity.
Defined.

(** C5 (as stated, refuted): a python-tagged body in which the prompt
    occurs only inside a line, beginning none, is classified [Markdown],
    not [Code]. *)
Lemma prompt_inside_line_is_markdown :
  is_python_tag "python" = true
  /\ has_prompt_line "print('>>> done')" = false
  /\ classify "python" "print('>>> done')" = Markdown.
Proof. repeat split. Qed.

(** C5 (amended): for a python/py tag the classifier yields [Markdown]
    exactly when the body contains the three characters of the prompt
    anywhere, and [Code] exactly when it does not; a body one of whose
    lines begins with the prompt is therefore [Markdown]. *)
Theorem python_block_markdown_iff_prompt_substring (language body : string) :
  is_python_tag language = true ->
  (classify language body = Markdown <-> contains ">>>" body = true)
  /\ (classify language body = Code <-> contains ">>>" body = false)
  /\ (has_prompt_line body = true -> classify language body = Markdown).
Proof.
  intros Hpy. unfold classify. rewrite Hpy.
  assert (Hline : has_prompt_line body = true -> contains ">>>" body = true)
    by apply line_prefix_contains.
  destruct (contains ">>>" body); repeat split; intros; auto;
    try discriminate.
  specialize (Hline H). discriminate.
Qed.

Lemma python_block_markdown_iff_prompt_substring_witness :
  (classify "py" "x = '>>>'" = Markdown <-> contains ">>>" "x = '>>>'" = true)
  /\ (classify "py" "x = '>>>'" = Code <-> contains ">>>" "x = '>>>'" = false)
  /\ (has_prompt_line "x = '>>>'" = true -> classify "py" "x = '>>>'" = Markdown).
Proof.
  apply (python_block_markdown_iff_prompt_substring "py" "x = '>>>'").
  reflexivity.
Defined.

End ClassifierFacts.

(** ** The scan of a document *)

Section ScanFacts.

Lemma language_of_tag (o : nat) (tag : option string) (body : string) :
  language_of (mkMatch o o tag body) = tag_text tag.
Proof. destruct tag as [[|c w]|]; reflexivity. Qed.

(** C2 (as stated, refuted): the stored text of the segments, put back
    between the fence delimiters, is shorter than the document: the
    newline after the prose, the one that ends the body and the one after
    the block are stored nowhere. *)
Lemma stored_text_drops_whitespace :
  stored_concat
    ("intro" ++ NL ++ "```python" ++ NL ++ "x = 1" ++ NL ++ "```" ++ NL)
  = "intro```python" ++ NL ++ "x = 1```"
  /\ String.eqb
       (stored_concat
          ("intro" ++ NL ++ "```python" ++ NL ++ "x = 1" ++ NL ++ "```" ++ NL))
       ("intro" ++ NL ++ "```python" ++ NL ++ "x = 1" ++ NL ++ "```" ++ NL)
     = false.
Proof. split; reflexivity. Qed.

(** C2 (amended): for every document, the untrimmed prose spans and the
    fenced blocks (opening fence, tag, newline, untrimmed body, closing
    fence), concatenated in order, are the document, and every segment
    starts where the text covered before it ends; the cells come from
    these segments in order, each storing its span or body trimmed of
    surrounding whitespace, and a prose span that is blank once trimmed
    yields no cell. *)
Theorem scan_partitions_document (file_path content : string) :
  concat "" (map covered (scan content)) = content
  /\ aligned 0 (scan content)
  /\ parse_markdown_file file_path content
     = flat_map (segment_cells file_path content) (scan content)
  /\ Forall
       (fun g =>
          segment_cells file_path content g
          = match g with
            | ProseSpan o _ =>
                if nonempty (stored g)
                then [prose_cell file_path (line_of content o) (stored g)]
                else []
            | FencedBlock o tag _ =>
                [block_cell file_path (line_of content o) (tag_text tag)
                   (stored g)]
            end)
       (scan content).
Proof.
  destruct (scan_inv content) as [Hc Ha].
  repeat split; try assumption.
  - apply parse_loop_segments.
  - apply Forall_forall. intros [o text | o tag body] _; simpl.
    + reflexivity.
    + now rewrite language_of_tag.
Qed.

Lemma source_lines_of_segments (file_path content : string) (gs : list raw_segment) :
  map source_line (flat_map (segment_cells file_path content) gs)
  = map (fun g => Some (line_of content (seg_offset g))) (filter yields_unit gs).
Proof.
  induction gs as [|g gs IH]; [reflexivity|].
  cbn [flat_map filter]. rewrite map_app, IH, source_line_segment_cells.
  destruct (yields_unit g); reflexivity.
Qed.

(** C3: the source lines of the cells of [parse_markdown_file], in cell
    order, are the lines of the start offsets of the segments that yield
    a cell, each the number of newlines before the offset plus one, and
    they never decrease. *)
Theorem locators_non_decreasing (file_path content : string) :
  map source_line (parse_markdown_file file_path content)
  = map (fun g => Some (count_nl (take (seg_offset g) content) + 1))
        (filter yields_unit (scan content))
  /\ StronglySorted le
       (map (fun g => count_nl (take (seg_offset g) content) + 1)
            (filter yields_unit (scan content))).
Proof.
  split.
  - unfold parse_markdown_file. rewrite parse_loop_segments.
    apply source_lines_of_segments.
  - destruct (scan_inv content) as [_ Ha].
    apply (aligned_lines_sorted content 0 _ Ha).
Qed.

End ScanFacts.

(** ** Assembly and shell cells *)

Section AssemblyFacts.

Lemma convert_assemble (file_path content : string) (no_setup no_toc : bool) :
  convert file_path content no_setup no_toc
  = assemble (process_shell_commands (parse_markdown_file file_path content))
      no_setup no_toc.
Proof. reflexivity. Qed.

(** With both fixed cells requested, the setup cell comes first and the
    table of contents second, before the [N] cells of the input. *)
Lemma assemble_both (cs : list cell) :
  cells (assemble cs false false) = setup_cell :: toc_cell :: cs.
Proof. reflexivity. Qed.

Lemma assemble_setup_only (cs : list cell) :
  cells (assemble cs false true) = setup_cell :: cs.
Proof. reflexivity. Qed.

Lemma assemble_neither (cs : list cell) :
  cells (assemble cs true true) = cs.
Proof. reflexivity. Qed.

(** C4 (the code at the failing input): with the setup cell skipped and
    the table of contents requested, the table of contents is inserted
    at index 1, after the first cell of the input, and not at index 0. *)
Theorem toc_without_setup_lands_second (c : cell) (cs : list cell) :
  cells (assemble (c :: cs) true false) = c :: toc_cell :: cs
  /\ nth_error (cells (assemble (c :: cs) true false)) 0 = Some c
  /\ nth_error (cells (assemble (c :: cs) true false)) 1 = Some toc_cell.
Proof. repeat split. Qed.

(** Every cell of [parse_markdown_file] opens with its source anchor, so
    none opens with the shell marker. *)
Lemma block_cell_not_bash (file_path : string) (line : nat) (language body : string) :
  is_bash_cell (block_cell file_path line language body) = false.
Proof.
  unfold block_cell.
  destruct (in_list (lower language) python_tags);
    [destruct (contains ">>>" body)
    | destruct (in_list (lower language) shell_tags || contains "$" body)];
    reflexivity.
Qed.

Lemma parse_loop_not_bash (file_path content : string) (ms : list re_match)
      (last_end : nat) :
  Forall (fun c => is_bash_cell c = false)
         (parse_loop file_path content ms last_end).
Proof.
  revert last_end; induction ms as [|m ms IH]; intros last_end;
    cbn [parse_loop].
  - unfold prose_cells. destruct (nonempty _); repeat constructor.
  - apply Forall_app. split.
    + unfold prose_cells. destruct (nonempty _); repeat constructor.
    + constructor; [apply block_cell_not_bash | apply IH].
Qed.

(** [process_shell_commands] changes no cell of [parse_markdown_file]. *)
Lemma process_after_parse (file_path content : string) :
  process_shell_commands (parse_markdown_file file_path content)
  = parse_markdown_file file_path content.
Proof.
  unfold process_shell_commands, parse_markdown_file.
  pose proof (parse_loop_not_bash file_path content (finditer content) 0) as H.
  induction H as [|c cs Hc _ IH]; [reflexivity|].
  cbn [map]. rewrite IH. unfold process_cell. now rewrite Hc.
Qed.

(** C7 (the code at the failing input): the document with one block
    tagged bash holding [pip install requests] becomes one code cell
    whose first line is the source anchor, followed by the shell marker
    and the command; [process_shell_commands] does not recognize it, and
    no package-install comment is added. *)
Theorem pip_block_gets_no_comment :
  cells (convert "README.md"
           ("```bash" ++ NL ++ "pip install requests" ++ NL ++ "```")
           true true)
  = [mkCell "code" (Some None)
       [("source_file", PStr "README.md");
        ("source_line", PInt 1);
        ("source_anchor", PStr "README.md:1")]
       (Some [])
       [ln "# [source:README.md:1]"; ln "%%bash"; ln "pip install requests"]]
  /\ existsb (String.eqb (ln "# Install Python package"))
       (flat_map source
          (cells (convert "README.md"
                    ("```bash" ++ NL ++ "pip install requests" ++ NL ++ "```")
                    true true)))
     = false
  /\ enhanced_source [ln "%%bash"; ln "pip install requests"]
     = [ln "%%bash"; ln "# Install Python package"; ln "pip install requests";
        failure_note].
Proof. repeat split. Qed.

(** C10: [process_shell_commands] returns as many cells, in the same
    order; each keeps its type, metadata, execution count and outputs;
    a cell whose source differs was a code cell whose first source line
    starts with the shell marker, and every other cell is returned as it
    was. *)
Theorem process_shell_commands_frame (cs : list cell) :
  List.length (process_shell_commands cs) = List.length cs
  /\ Forall2
       (fun c c' =>
          cell_type c' = cell_type c
          /\ metadata c' = metadata c
          /\ execution_count c' = execution_count c
          /\ outputs c' = outputs c
          /\ (source c' <> source c ->
              cell_type c = "code"
              /\ exists first rest,
                   source c = first :: rest /\ startswith first "%%bash" = true)
          /\ (is_bash_cell c = false -> c' = c))
       cs (process_shell_commands cs).
Proof.
  unfold process_shell_commands. split; [apply length_map|].
  induction cs as [|c cs IH]; cbn [map]; constructor; [|exact IH].
  unfold process_cell. destruct (is_bash_cell c) eqn:B.
  - do 4 (split; [reflexivity|]). split; [|discriminate].
    intros _. unfold is_bash_cell in B.
    apply andb_true_iff in B as [Bt Bs]. split.
    + now apply String.eqb_eq in Bt.
    + destruct (source c) as [|first rest]; [discriminate|].
      now exists first, rest.
  - do 4 (split; [reflexivity|]). split; [|reflexivity].
    intros Hne. now destruct Hne.
Qed.

End AssemblyFacts.

(** ** The heuristic rewriter *)

Section RewriterFacts.

Lemma in_optional (c : bool) (x y : string) :
  In x (if c then [y] else []) <-> c = true /\ y = x.
Proof.
  destruct c; simpl; split; intros H.
  - destruct H as [H|[]]. now split.
  - left. apply H.
  - destruct H.
  - destruct H; discriminate.
Qed.

Lemma import_condition (a b : bool) :
  a && negb b = true <-> a = true /\ b = false.
Proof. destruct a, b; simpl; intuition discriminate. Qed.

Ltac import_membership :=
  unfold import_lines;
  rewrite !in_app_iff, !in_optional, !import_condition;
  destruct (contains "pkg_resources" _); cbn;
  intuition (try discriminate; try congruence).

Lemma import_lines_known (body m : string) :
  In m known_modules ->
  In (ln ("import " ++ m)) (import_lines body)
  <-> contains (m ++ ".") body = true /\ contains ("import " ++ m) body = false.
Proof.
  intros [<-|[<-|[<-|[<-|[]]]]];
    change (ln ("import " ++ "os")) with (ln "import os");
    change (ln ("import " ++ "sys")) with (ln "import sys");
    change (ln ("import " ++ "requests")) with (ln "import requests");
    change (ln ("import " ++ "inspect")) with (ln "import inspect");
    cbn [append]; import_membership.
Qed.

(** C8: for each of the modules os, sys, requests and inspect, the line
    [import m] is among the synthesized lines exactly when the body
    contains [m.] and does not contain [import m]; the synthesized lines
    are placed before the body of a [Code] unit, after its anchor, while
    the source of a [Shell] unit is its anchor, the shell marker and the
    lines of the body, and that of a [Markdown] unit its anchor and the
    fenced body: neither holds a synthesized line. *)
Theorem import_insertion_only_for_code
        (file_path : string) (line : nat) (language body m : string) :
  In m known_modules ->
  (In (ln ("import " ++ m)) (import_lines body)
   <-> contains (m ++ ".") body = true
       /\ contains ("import " ++ m) body = false)
  /\ (classify language body = Code ->
      source (block_cell file_path line language body)
      = code_anchor file_path line
          :: import_lines body
          ++ (if contains "pkg_resources" body
              then modified_lines false (split_nl body)
              else lines_nl body))
  /\ (classify language body = Shell ->
      source (block_cell file_path line language body)
      = code_anchor file_path line :: ln "%%bash" :: lines_nl body)
  /\ (classify language body = Markdown ->
      exists tag,
        source (block_cell file_path line language body)
        = [html_anchor file_path line;
           ln ("```" ++ tag) ++ body ++ NL ++ "```"]).
Proof.
  intros Hm. split; [now apply import_lines_known|].
  unfold classify, block_cell, is_python_tag, is_shell_tag.
  destruct (in_list (lower language) python_tags);
    [destruct (contains ">>>" body)
    | destruct (in_list (lower language) shell_tags || contains "$" body)];
    repeat split; intros H; try discriminate H; try reflexivity.
  - now exists "python".
  - now exists language.
Qed.

Lemma import_insertion_only_for_code_witness :
  (In (ln ("import " ++ "os")) (import_lines "print(os.getcwd())")
   <-> contains ("os" ++ ".") "print(os.getcwd())" = true
       /\ contains ("import " ++ "os") "print(os.getcwd())" = false)
  /\ source (block_cell "README.md" 3 "python" "print(os.getcwd())")
     = [ln "# [source:README.md:3]"; ln "import os"; ln "print(os.getcwd())"].
Proof.
  pose proof (import_insertion_only_for_code "README.md" 3 "python"
                "print(os.getcwd())" "os" (or_introl eq_refl)) as [H1 [H2 _]].
  split; [exact H1 | exact (H2 eq_refl)].
Defined.

End RewriterFacts.

(** ** The syntax validator *)

Section SyntaxValidatorFacts.

Lemma prompt_step_kept (python_lines : list string) (line : string) :
  CodeBlocks.prompt_step python_lines line
  = (python_lines ++ CodeBlocks.kept_line line)%list.
Proof.
  unfold CodeBlocks.prompt_step, CodeBlocks.kept_line. cbv zeta.
  destruct (startswith (strip line) ">>> "); [reflexivity|].
  destruct (startswith (strip line) "... "); [reflexivity|].
  destruct (startswith (strip line) "..."); [reflexivity|].
  rewrite andb_true_r.
  destruct (nonempty (strip line) && negb (startswith (strip line) ">>>"));
    [reflexivity | now rewrite app_nil_r].
Qed.

Lemma fold_prompt_step (lines acc : list string) :
  fold_left CodeBlocks.prompt_step lines acc
  = (acc ++ flat_map CodeBlocks.kept_line lines)%list.
Proof.
  revert acc; induction lines as [|l lines IH]; intros acc; simpl.
  - now rewrite app_nil_r.
  - now rewrite IH, prompt_step_kept, <- app_assoc.
Qed.




End SyntaxValidatorFacts.

(** ** The execution validator *)

Section ExecutionValidatorFacts.

Variable preprocess : list Validate.ncell -> list Validate.ncell * Validate.result unit.

(** C9: the validator returns a boolean and never raises: [True] with
    the success report when the execution of the filtered notebook
    returns, [False] when it raises, the exception being the first entry
    of the report. *)
Theorem validate_notebook_returns_flag (notebook_cells : list Validate.ncell) :
  snd (Validate.validate_notebook preprocess notebook_cells)
  = Validate.Ok
      (match snd (preprocess (Validate.filtered_cells notebook_cells)) with
       | Validate.Ok _ => true
       | Validate.Raised _ => false
       end)
  /\ match snd (preprocess (Validate.filtered_cells notebook_cells)) with
     | Validate.Ok _ =>
         fst (Validate.validate_notebook preprocess notebook_cells)
         = [Validate.ExecutedOk]
     | Validate.Raised e =>
         fst (Validate.validate_notebook preprocess notebook_cells)
         = Validate.ExecutionFailed e
             :: Validate.error_report notebook_cells 0
                  (fst (preprocess (Validate.filtered_cells notebook_cells)))
     end.
Proof.
  unfold Validate.validate_notebook, Validate.run_preprocess.
  destruct (preprocess (Validate.filtered_cells notebook_cells)) as [after [u|e]];
    simpl; split; try reflexivity.
  now rewrite app_nil_r.
Qed.

End ExecutionValidatorFacts.

(** ** The matches of the scan *)

Section MatchFacts.

Import Matches.

Lemma drop_nil (n : nat) : drop n "" = "".
Proof. now destruct n. Qed.

Lemma take_append_length (a b : string) : take (length a) (a ++ b) = a.
Proof. induction a as [|x a IH]; simpl; [reflexivity | now rewrite IH]. Qed.

Lemma span_word_all_word (s w r : string) :
  span_word s = (w, r) -> all_word w = true.
Proof.
  revert w r; induction s as [|c s IH]; intros w r H; simpl in H.
  - now injection H as <- <-.
  - destruct (isword c) eqn:C.
    + destruct (span_word s) as [w' r'] eqn:E. injection H as <- <-.
      simpl. rewrite C. now apply (IH w' r').
    + now injection H as <- <-.
Qed.

(** The lazy body stops at the first fence: it holds none. *)
Lemma find_fence_body (s b r : string) :
  find_fence s = Some (b, r) -> contains fence b = false.
Proof.
  revert b r; induction s as [|c s IH]; intros b r H.
  - discriminate.
  - cbn [find_fence] in H. destruct (prefix fence (String c s)) eqn:P.
    + now injection H as <- <-.
    + destruct (find_fence s) as [[b' r']|] eqn:E; [|discriminate].
      injection H as <- <-.
      pose proof (find_fence_split _ _ _ E) as Hs.
      change (prefix fence (String c b') || contains fence b' = false).
      rewrite (IH b' r' eq_refl), orb_false_r.
      destruct (prefix fence (String c b')) eqn:Q; [|reflexivity].
      apply (prefix_append _ _ (fence ++ r')) in Q.
      change (String c b' ++ fence ++ r') with (String c (b' ++ fence ++ r')) in Q.
      rewrite <- Hs in Q. congruence.
Qed.

Lemma match_here_parts (s : string) (g1 : option string) (g2 rest : string) :
  match_here s = Some (g1, g2, rest) ->
  tag_ok g1 = true /\ contains fence g2 = false.
Proof.
  unfold match_here. intros H.
  destruct (prefix fence s); [|discriminate].
  destruct (span_word (drop 3 s)) as [w r] eqn:W.
  destruct r as [|c r']; [discriminate|].
  destruct (Ascii.eqb c nl); [|discriminate].
  destruct (find_fence r') as [[b rest']|] eqn:F; [|discriminate].
  injection H as <- <- <-. split.
  - pose proof (span_word_all_word _ _ _ W) as A.
    destruct w; simpl; [reflexivity | exact A].
  - apply (find_fence_body _ _ _ F).
Qed.

Lemma match_here_prefix (s : string) :
  prefix fence s = false -> match_here s = None.
Proof. unfold match_here. now intros ->. Qed.

Lemma group0_covered (pos e : nat) (g1 : option string) (g2 : string) :
  group0 (mkMatch pos e g1 g2) = fence ++ tag_text g1 ++ NL ++ g2 ++ fence.
Proof. reflexivity. Qed.

Variable content : string.

(** The scan from offset [pos] reports occurrences only, taking at each
    offset the match the pattern has there and skipping none. *)
Lemma finditer_from_inv (fuel pos : nat) (s : string) (last_end : nat) :
  drop pos content = s ->
  pos + length s = length content ->
  length s <= fuel ->
  last_end <= pos ->
  (forall i, last_end <= i -> i < pos -> match_here (drop i content) = None) ->
  Forall (occurrence content) (finditer_from fuel pos s)
  /\ leftmost content last_end (finditer_from fuel pos s).
Proof.
  revert pos s last_end.
  induction fuel as [|fuel IH]; intros pos s last_end Hs Hlen Hfuel Hle Hgap.
  - destruct s; [|simpl in Hfuel; lia]. split; [constructor|].
    simpl. intros i Hi. destruct (Nat.lt_ge_cases i pos) as [L|G].
    + now apply Hgap.
    + replace i with (pos + (i - pos)) by lia.
      now rewrite <- drop_drop, Hs, drop_nil.
  - cbn [finditer_from].
    destruct (match_here s) as [[[g1 g2] rest]|] eqn:E.
    + pose proof (match_here_split _ _ _ _ E) as Hsplit.
      pose proof (match_here_length _ _ _ _ E) as [Hl Hlt].
      pose proof (match_here_parts _ _ _ _ E) as [Htag Hbody].
      set (cov := fence ++ tag_text g1 ++ NL ++ g2 ++ fence) in *.
      assert (Hcov : 0 < length cov) by (unfold cov; simpl; lia).
      assert (He : pos + (length s - length rest) = pos + length cov) by lia.
      cbv zeta. rewrite He.
      assert (Hrest : drop (pos + length cov) content = rest).
      { rewrite <- drop_drop, Hs, Hsplit. apply drop_append_length. }
      destruct (IH (pos + length cov) rest (pos + length cov) Hrest
                  ltac:(lia) ltac:(lia) (le_n _)) as [IHo IHl].
      { intros i Hi1 Hi2. lia. }
      split.
      * constructor; [|exact IHo].
        unfold occurrence. cbn [m_start m_end group1 group2].
        rewrite group0_covered. fold cov.
        repeat split; try assumption; try lia.
        unfold slice. replace (pos + length cov - pos) with (length cov) by lia.
        rewrite Hs, Hsplit. apply take_append_length.
      * cbn [leftmost m_start m_end group1 group2].
        repeat split; try assumption.
        now rewrite Hs, Hrest.
    + destruct s as [|c s'].
      * split; [constructor|]. simpl. intros i Hi.
        destruct (Nat.lt_ge_cases i pos) as [L|G].
        -- now apply Hgap.
        -- replace i with (pos + (i - pos)) by lia.
           now rewrite <- drop_drop, Hs, drop_nil.
      * apply (IH (S pos) s' last_end).
        -- now apply drop_String with (c := c).
        -- simpl in Hlen. lia.
        -- simpl in Hfuel. lia.
        -- lia.
        -- intros i Hi1 Hi2. destruct (Nat.eq_dec i pos) as [->|N].
           ++ now rewrite Hs.
           ++ apply Hgap; lia.
Qed.

End MatchFacts.

Section MatchTheorems.

Lemma finditer_inv (content : string) :
  Forall (Matches.occurrence content) (finditer content)
  /\ Matches.leftmost content 0 (finditer content).
Proof.
  unfold finditer.
  apply (finditer_from_inv content (length content) 0 content 0);
    try reflexivity; try lia.
Qed.

(** X1: every match that the scan reports is an occurrence of the
    pattern in the document: the text between its start and end offsets
    is the opening fence, the tag, a newline, the body and the closing
    fence; the match is not empty and ends inside the document; the tag
    group is absent or a non-empty run of word characters; and the body
    holds no fence. *)
Theorem finditer_matches_occur (content : string) :
  Forall (Matches.occurrence content) (finditer content).
Proof. apply finditer_inv. Qed.

(** X2: the scan reports the leftmost non-overlapping matches: each
    match starts at or after the end of the one before it, is the match
    the pattern has at its start offset, and no offset between two
    matches, before the first or after the last starts a match of the
    pattern. *)
Theorem finditer_leftmost (content : string) :
  Matches.leftmost content 0 (finditer content).
Proof. apply finditer_inv. Qed.

Lemma no_fence_no_match (fuel pos : nat) (s : string) :
  contains fence s = false -> finditer_from fuel pos s = [].
Proof.
  revert pos s; induction fuel as [|fuel IH]; intros pos s H; [reflexivity|].
  cbn [finditer_from].
  assert (P : prefix fence s = false).
  { destruct s as [|c s']; [reflexivity|].
    change (prefix fence (String c s') || contains fence s' = false) in H.
    now apply orb_false_iff in H as [H _]. }
  rewrite (match_here_prefix _ P).
  destruct s as [|c s']; [reflexivity|].
  apply IH.
  change (prefix fence (String c s') || contains fence s' = false) in H.
  now apply orb_false_iff in H as [_ H].
Qed.

(** X3: a document that holds no fence yields the whole text, trimmed,
    as one markdown cell anchored at line 1, and no cell at all when
    the text is blank. *)
Theorem no_fence_single_prose_cell (file_path content : string) :
  contains "```" content = false ->
  parse_markdown_file file_path content
  = if nonempty (strip content)
    then [prose_cell file_path 1 (strip content)]
    else [].
Proof.
  intros H. unfold parse_markdown_file, finditer.
  rewrite (no_fence_no_match _ _ _ H). reflexivity.
Qed.

Lemma no_fence_single_prose_cell_witness :
  parse_markdown_file "README.md" ("# Title" ++ NL ++ NL ++ "Some prose." ++ NL)
  = if nonempty (strip ("# Title" ++ NL ++ NL ++ "Some prose." ++ NL))
    then [prose_cell "README.md" 1
            (strip ("# Title" ++ NL ++ NL ++ "Some prose." ++ NL))]
    else [].
Proof.
  apply (no_fence_single_prose_cell "README.md"
           ("# Title" ++ NL ++ NL ++ "Some prose." ++ NL)).
  reflexivity.
Defined.

End MatchTheorems.

(** ** Lines of the blocks *)

Section LineFacts.

Lemma take_nil (n : nat) : take n "" = "".
Proof. now destruct n. Qed.

(** [content[:a] + content[a:b] == content[:b]] when [a <= b]. *)
Lemma take_slice (s : string) (a b : nat) :
  a <= b -> take a s ++ slice s a b = take b s.
Proof.
  revert s b; induction a as [|a IH]; intros s b H.
  - unfold slice. now rewrite Nat.sub_0_r.
  - destruct b as [|b]; [lia|]. destruct s as [|c s].
    + unfold slice. now rewrite drop_nil, !take_nil.
    + simpl. f_equal. apply (IH s b). lia.
Qed.

Lemma count_nl_slice (s : string) (a b : nat) :
  a <= b ->
  count_nl (take b s) = count_nl (take a s) + count_nl (slice s a b).
Proof.
  intros H. now rewrite <- (take_slice s a b H), count_nl_append.
Qed.

Lemma count_nl_take_le (s : string) (n : nat) :
  count_nl (take n s) <= count_nl s.
Proof.
  rewrite <- (take_drop n s) at 2. rewrite count_nl_append. lia.
Qed.

Lemma isword_nl : isword nl = false.
Proof. reflexivity. Qed.

Lemma all_word_no_newline (w : string) :
  Matches.all_word w = true -> count_nl w = 0.
Proof.
  induction w as [|c w IH]; simpl; [reflexivity|].
  intros H. apply andb_true_iff in H as [Hc Hw].
  destruct (Ascii.eqb c nl) eqn:E.
  - apply Ascii.eqb_eq in E. subst c. rewrite isword_nl in Hc. discriminate.
  - now rewrite (IH Hw).
Qed.

Lemma tag_no_newline (g1 : option string) :
  Matches.tag_ok g1 = true -> count_nl (tag_text g1) = 0.
Proof.
  destruct g1 as [w|]; simpl; [|reflexivity].
  intros H. apply andb_true_iff in H as [_ H].
  now apply all_word_no_newline.
Qed.

(** The newlines of a matched block: the one that ends the opening
    fence line and those of the body. *)
Lemma count_nl_group0 (m : re_match) :
  Matches.tag_ok (group1 m) = true ->
  count_nl (group0 m) = 1 + count_nl (group2 m).
Proof.
  intros H. unfold group0.
  change (match group1 m with Some w => w | None => "" end)
    with (tag_text (group1 m)).
  rewrite !count_nl_append, (tag_no_newline _ H). simpl. lia.
Qed.

Lemma occurrence_lines (content : string) (m : re_match) :
  Matches.occurrence content m ->
  line_of content (m_end m)
  = line_of content (m_start m) + 1 + count_nl (group2 m).
Proof.
  intros (Hlt & _ & Hslice & Htag & _). unfold line_of.
  rewrite (count_nl_slice content (m_start m) (m_end m)) by lia.
  rewrite Hslice, (count_nl_group0 _ Htag). lia.
Qed.

Lemma leftmost_lines_increase (content : string) (ms : list re_match) (last_end : nat) :
  Matches.leftmost content last_end ms ->
  Forall (Matches.occurrence content) ms ->
  Forall (fun m => line_of content last_end <= line_of content (m_start m)) ms
  /\ StronglySorted lt (map (fun m => line_of content (m_start m)) ms).
Proof.
  revert last_end; induction ms as [|m ms IH]; intros last_end Hl Ho.
  - split; constructor.
  - destruct Hl as (Hle & _ & _ & Hl').
    inversion Ho as [|? ? Hm Hms]; subst.
    destruct (IH _ Hl' Hms) as [Hall Hsorted].
    pose proof (occurrence_lines _ _ Hm) as Hend.
    pose proof (line_of_mono content _ _ Hle) as Hstart.
    split.
    + constructor; [exact Hstart|].
      eapply Forall_impl; [|exact Hall]. simpl. intros m' Hm'. lia.
    + cbn [map]. constructor; [exact Hsorted|].
      apply Forall_forall. intros l Hin.
      apply in_map_iff in Hin as [m' [<- Hin]].
      rewrite Forall_forall in Hall. specialize (Hall m' Hin). simpl in Hall.
      lia.
Qed.

(** X4: the start lines of the blocks that [extract_code_blocks]
    returns are strictly increasing: two fenced blocks never share a
    line number, since a block holds at least the newline that ends its
    opening fence line. *)
Theorem block_lines_strictly_increase (content : string) :
  StronglySorted lt
    (map CodeBlocks.start_line (CodeBlocks.extract_code_blocks content)).
Proof.
  unfold CodeBlocks.extract_code_blocks. rewrite map_map. cbn [CodeBlocks.start_line].
  apply (leftmost_lines_increase content (finditer content) 0);
    apply finditer_inv.
Qed.

(** X5: the offset that [parse_markdown_file] keeps in [last_end] after
    a block, from which the next prose cell takes its line, lies on the
    line of the closing fence of that block: its line is the line of
    the opening fence plus one plus the number of newlines of the
    untrimmed body. *)
Theorem prose_after_block_line (content : string) :
  Forall
    (fun m =>
       count_nl (take (m_end m) content) + 1
       = (count_nl (take (m_start m) content) + 1) + 1 + count_nl (group2 m))
    (finditer content).
Proof.
  eapply Forall_impl; [|apply finditer_inv].
  intros m Hm. apply (occurrence_lines content m Hm).
Qed.

End LineFacts.

(** ** Cells of a conversion *)

Section CellFacts.

Import Origin.

Lemma line_at_bounds (content : string) (offset : nat) :
  1 <= line_at content offset /\ line_at content offset <= count_nl content + 1.
Proof.
  unfold line_at. pose proof (count_nl_take_le content offset). lia.
Qed.

Lemma block_cell_anchored (file_path : string) (line : nat) (language body : string) :
  anchored_at file_path line (block_cell file_path line language body).
Proof.
  unfold block_cell, anchored_at.
  destruct (in_list (lower language) python_tags);
    [destruct (contains ">>>" body)
    | destruct (in_list (lower language) shell_tags || contains "$" body)];
    (split; [reflexivity|]);
    [left | right | right | left]; repeat split; eexists; reflexivity.
Qed.

Lemma prose_cells_anchored (file_path content : string) (last_end : nat) (span : string) :
  Forall (anchored_at file_path (line_at content last_end))
         (prose_cells file_path content last_end span).
Proof.
  unfold prose_cells. destruct (nonempty (strip span)); constructor; [|constructor].
  split; [reflexivity|]. left. repeat split. eexists. reflexivity.
Qed.

Lemma parse_loop_anchored (file_path content : string) (ms : list re_match)
      (last_end : nat) :
  Forall (fun c => exists line,
              1 <= line /\ line <= count_nl content + 1
              /\ anchored_at file_path line c)
         (parse_loop file_path content ms last_end).
Proof.
  assert (P : forall o span,
             Forall (fun c => exists line,
                         1 <= line /\ line <= count_nl content + 1
                         /\ anchored_at file_path line c)
                    (prose_cells file_path content o span)).
  { intros o span. eapply Forall_impl; [|apply prose_cells_anchored].
    intros c Hc. exists (line_at content o).
    destruct (line_at_bounds content o). auto. }
  revert last_end; induction ms as [|m ms IH]; intros last_end;
    cbn [parse_loop].
  - apply P.
  - apply Forall_app. split; [apply P|]. constructor; [|apply IH].
    exists (line_at content (m_start m)).
    destruct (line_at_bounds content (m_start m)).
    split; [assumption|]. split; [assumption|]. apply block_cell_anchored.
Qed.

Lemma parse_anchored (file_path content : string) :
  Forall (fun c => exists line,
              1 <= line /\ line <= count_nl content + 1
              /\ anchored_at file_path line c)
         (parse_markdown_file file_path content).
Proof. apply parse_loop_anchored. Qed.

(** X6: every cell of [parse_markdown_file] is traceable: its metadata
    hold the file, a line between 1 and the number of lines of the
    document, and the anchor made of both, and its first source line is
    the comment that spells this same anchor (an HTML comment in a
    markdown cell, a [#] comment in a code cell); a markdown cell has no
    execution count and no outputs, a code cell has the execution count
    [None] and an empty list of outputs. *)
Theorem parse_cells_anchored (file_path content : string) :
  Forall (fun c => exists line,
              1 <= line /\ line <= count_nl content + 1
              /\ anchored_at file_path line c)
         (parse_markdown_file file_path content).
Proof. apply parse_loop_anchored. Qed.

Lemma anchored_has_metadata (file_path : string) (line : nat) (c : cell) :
  anchored_at file_path line c -> has_metadata c = true.
Proof. intros [H _]. unfold has_metadata. now rewrite H. Qed.

Lemma anchored_type (file_path : string) (line : nat) (c : cell) :
  anchored_at file_path line c ->
  cell_type c = "code" \/ cell_type c = "markdown".
Proof. intros [_ [(H & _)|(H & _)]]; auto. Qed.

Lemma filter_true {A : Type} (f : A -> bool) (l : list A) :
  Forall (fun x => f x = true) l -> filter f l = l.
Proof.
  induction 1 as [|x l Hx _ IH]; [reflexivity|].
  simpl. now rewrite Hx, IH.
Qed.

Lemma parse_cells_have_metadata (file_path content : string) :
  Forall (fun c => has_metadata c = true) (parse_markdown_file file_path content).
Proof.
  eapply Forall_impl; [|apply parse_anchored].
  intros c (line & _ & _ & H). now apply anchored_has_metadata in H.
Qed.

(** X7: whatever the two switches, the cells of the converted notebook
    that carry metadata are the cells of [parse_markdown_file], in the
    same order and unchanged by [process_shell_commands]; the notebook
    holds these and one more cell for each fixed cell requested. *)
Theorem convert_keeps_document_cells
        (file_path content : string) (no_setup no_toc : bool) :
  filter has_metadata (cells (convert file_path content no_setup no_toc))
  = parse_markdown_file file_path content
  /\ List.length (cells (convert file_path content no_setup no_toc))
     = List.length (parse_markdown_file file_path content)
       + (if no_setup then 0 else 1) + (if no_toc then 0 else 1).
Proof.
  rewrite convert_assemble, process_after_parse.
  pose proof (parse_cells_have_metadata file_path content) as H.
  apply filter_true in H.
  destruct no_setup, no_toc; unfold assemble; simpl.
  - split; [exact H | lia].
  - destruct (parse_markdown_file file_path content) as [|c cs]; simpl in *.
    + split; reflexivity.
    + unfold insert. simpl.
      destruct (has_metadata c) eqn:E; [|inversion H as [H1];
        assert (L : List.length (filter has_metadata cs) <= List.length cs)
          by apply filter_length_le;
        rewrite H1 in L; simpl in L; lia].
      split; [exact H | simpl; lia].
  - split; [exact H | lia].
  - split; [exact H | lia].
Qed.

Lemma count_types (cs : list cell) :
  Forall (fun c => cell_type c = "code" \/ cell_type c = "markdown") cs ->
  count_type "code" cs + count_type "markdown" cs = List.length cs.
Proof.
  unfold count_type. induction 1 as [|c cs Hc _ IH]; [reflexivity|].
  simpl. destruct Hc as [-> | ->]; simpl; lia.
Qed.

Lemma insert_Forall {A : Type} (P : A -> Prop) (i : nat) (x : A) (l : list A) :
  P x -> Forall P l -> Forall P (insert i x l).
Proof.
  intros Hx Hl. unfold insert.
  rewrite <- (firstn_skipn i l) in Hl. apply Forall_app in Hl as [H1 H2].
  apply Forall_app. split; [exact H1 | now constructor].
Qed.

Lemma convert_cells_Forall (P : cell -> Prop)
      (file_path content : string) (no_setup no_toc : bool) :
  P setup_cell -> P toc_cell ->
  Forall P (parse_markdown_file file_path content) ->
  Forall P (cells (convert file_path content no_setup no_toc)).
Proof.
  intros Hs Ht Hp. rewrite convert_assemble, process_after_parse.
  unfold assemble, add_setup_cell, add_toc_cell.
  destruct no_setup, no_toc; cbn [negb create_notebook cells set_cells];
    repeat apply insert_Forall; assumption.
Qed.

(** X8: the statistics that [main] prints add up: in every converted
    notebook the number of code cells plus the number of markdown cells
    is the total number of cells. *)
Theorem statistics_add_up (file_path content : string) (no_setup no_toc : bool) :
  count_type "code" (cells (convert file_path content no_setup no_toc))
  + count_type "markdown" (cells (convert file_path content no_setup no_toc))
  = List.length (cells (convert file_path content no_setup no_toc)).
Proof.
  apply count_types. apply convert_cells_Forall.
  - now left.
  - now right.
  - eapply Forall_impl; [|apply parse_anchored].
    intros c (line & _ & _ & H). now apply anchored_type in H.
Qed.

End CellFacts.

(** ** Source lines of a cell *)

Section SourceFacts.

(** [''.join(line + '\n' for line in s.split('\n')) == s + '\n'] *)
Lemma concat_lines_nl (s : string) : concat "" (lines_nl s) = s ++ NL.
Proof.
  unfold lines_nl. induction s as [|c s IH]; [reflexivity|].
  cbn [split_nl]. destruct (Ascii.eqb c nl) eqn:E.
  - apply Ascii.eqb_eq in E. subst c.
    cbn [map]. rewrite concat_cons, IH. reflexivity.
  - destruct (split_nl s) as [|l ls] eqn:S.
    + now destruct (split_nl_nonempty s).
    + cbn [map] in *. rewrite concat_cons in *.
      unfold ln in *. simpl. f_equal. exact IH.
Qed.

(** ['\n'.join(s.split('\n')) == s] *)
Lemma join_split_nl (s : string) : join NL (split_nl s) = s.
Proof.
  unfold join. induction s as [|c s IH]; [reflexivity|].
  cbn [split_nl]. destruct (Ascii.eqb c nl) eqn:E.
  - apply Ascii.eqb_eq in E. subst c.
    destruct (split_nl s) as [|l ls] eqn:S.
    + now destruct (split_nl_nonempty s).
    + change (concat NL ("" :: l :: ls)) with (NL ++ concat NL (l :: ls)).
      now rewrite IH.
  - destruct (split_nl s) as [|l ls] eqn:S.
    + now destruct (split_nl_nonempty s).
    + destruct ls as [|l' ls'].
      * simpl in *. now rewrite IH.
      * change (concat NL (String c l :: l' :: ls'))
          with (String c (l ++ NL ++ concat NL (l' :: ls'))).
        f_equal. exact IH.
Qed.

Lemma skipn_length_app {A : Type} (a b : list A) :
  skipn (List.length a) (a ++ b) = b.
Proof. induction a as [|x a IH]; [reflexivity | exact IH]. Qed.

(** X9: the text a cell was made from can be read back from its source
    lines: joined, the lines after the anchor of a prose cell are the
    trimmed prose and a newline; those after the anchor and the shell
    marker of a [Shell] cell, and those after the anchor and the
    synthesized lines of a [Code] cell whose body does not mention
    [pkg_resources], are the body and a newline. *)
Theorem cell_source_reads_back
        (file_path : string) (line : nat) (language body text : string) :
  concat "" (tl (source (prose_cell file_path line text))) = text ++ NL
  /\ (classify language body = Shell ->
      concat "" (skipn 2 (source (block_cell file_path line language body)))
      = body ++ NL)
  /\ (classify language body = Code ->
      contains "pkg_resources" body = false ->
      concat ""
        (skipn (1 + List.length (import_lines body))
               (source (block_cell file_path line language body)))
      = body ++ NL).
Proof.
  split; [apply concat_lines_nl|].
  unfold classify, block_cell, is_python_tag, is_shell_tag.
  destruct (in_list (lower language) python_tags);
    [destruct (contains ">>>" body)
    | destruct (in_list (lower language) shell_tags || contains "$" body)];
    split; intros H; try discriminate H.
  - intros Hpkg. cbn [source code_cell]. rewrite Hpkg.
    cbn [plus skipn]. rewrite skipn_length_app. apply concat_lines_nl.
  - apply concat_lines_nl.
Qed.

Lemma cell_source_reads_back_witness :
  concat "" (skipn 2 (source (block_cell "README.md" 4 "bash"
                                ("cd src" ++ NL ++ "make"))))
  = ("cd src" ++ NL ++ "make") ++ NL
  /\ concat ""
       (skipn (1 + List.length (import_lines "print(os.name)"))
              (source (block_cell "README.md" 9 "python" "print(os.name)")))
     = "print(os.name)" ++ NL.
Proof.
  split.
  - apply (proj1 (proj2 (cell_source_reads_back "README.md" 4 "bash"
                           ("cd src" ++ NL ++ "make") ""))).
    reflexivity.
  - apply (proj2 (proj2 (cell_source_reads_back "README.md" 9 "python"
                           "print(os.name)" ""))); reflexivity.
Defined.

(** X10: [process_shell_commands] is not idempotent: a cell it
    enhances still starts with the shell marker, so a second pass
    enhances it again; each pass replaces the first source line by the
    bare marker, appends the note, and makes the source one line longer
    (two when a command follows the marker, for the comment). *)
Theorem process_cell_grows (c : cell) :
  is_bash_cell c = true ->
  is_bash_cell (process_cell c) = true
  /\ hd "" (source (process_cell c)) = ln "%%bash"
  /\ last (source (process_cell c)) "" = failure_note
  /\ List.length (source (process_cell c))
     = List.length (source c)
       + (if Nat.leb 2 (List.length (source c)) then 2 else 1)
  /\ process_cell (process_cell c) <> process_cell c.
Proof.
  intros B.
  assert (E : process_cell c = set_source c (enhanced_source (source c)))
    by (unfold process_cell; now rewrite B).
  assert (B' : is_bash_cell (process_cell c) = true).
  { rewrite E. unfold is_bash_cell in *. cbn [cell_type set_source source].
    apply andb_true_iff in B as [-> _]. reflexivity. }
  assert (L : forall src, src <> [] ->
              List.length (enhanced_source src)
              = List.length src + (if Nat.leb 2 (List.length src) then 2 else 1)).
  { intros [|a [|b src]] Hne; [congruence | reflexivity |].
    unfold enhanced_source. cbn [tl app List.length].
    rewrite length_app. simpl. lia. }
  assert (Hne : source c <> []).
  { unfold is_bash_cell in B. apply andb_true_iff in B as [_ B].
    destruct (source c); [discriminate | discriminate]. }
  assert (Hne' : source (process_cell c) <> []).
  { rewrite E. discriminate. }
  repeat split; try assumption.
  - now rewrite E.
  - rewrite E. cbn [source set_source]. unfold enhanced_source.
    rewrite !app_assoc. apply last_last.
  - rewrite E. cbn [source set_source]. now apply L.
  - intros Heq. apply (f_equal (fun x => List.length (source x))) in Heq.
    unfold process_cell at 1 in Heq. rewrite B' in Heq.
    cbn [source set_source] in Heq. rewrite (L _ Hne') in Heq.
    destruct (Nat.leb 2 (List.length (source (process_cell c)))); lia.
Qed.

Lemma process_cell_grows_witness :
  is_bash_cell (process_cell (Legacy.code_cell [ln "%%bash"; "ls"])) = true
  /\ List.length (source (process_cell (Legacy.code_cell [ln "%%bash"; "ls"])))
     = 4.
Proof.
  destruct (process_cell_grows (Legacy.code_cell [ln "%%bash"; "ls"]) eq_refl)
    as (H1 & _ & _ & H2 & _).
  split; [exact H1 | exact H2].
Defined.

(** X11: in the earlier converter a block with a shell tag becomes a
    cell that [process_shell_commands] enhances: the marker, the comment
    chosen from the first line of the body, the lines of the body and
    the note; the cell that the later converter makes of the same block
    is returned unchanged. *)
Theorem legacy_shell_cell_enhanced
        (file_path : string) (line : nat) (language body : string) :
  is_shell_tag language = true ->
  source (process_cell (Legacy.block_cell language body))
  = (ln "%%bash" :: shell_comment (strip (hd "" (split_nl body)))
       :: split_nl body ++ [failure_note])%list
  /\ process_cell (block_cell file_path line language body)
     = block_cell file_path line language body.
Proof.
  intros H. split.
  - unfold Legacy.block_cell.
    pose proof (shell_tag_not_python _ H) as P.
    unfold is_python_tag in P. unfold is_shell_tag in H. rewrite P, H.
    destruct (split_nl body) as [|l ls] eqn:S.
    + now destruct (split_nl_nonempty body).
    + reflexivity.
  - unfold process_cell. now rewrite block_cell_not_bash.
Qed.

Lemma legacy_shell_cell_enhanced_witness :
  source (process_cell (Legacy.block_cell "bash" "pip install requests"))
  = [ln "%%bash"; ln "# Install Python package"; "pip install requests";
     failure_note]
  /\ process_cell (block_cell "README.md" 1 "bash" "pip install requests")
     = block_cell "README.md" 1 "bash" "pip install requests".
Proof.
  apply (legacy_shell_cell_enhanced "README.md" 1 "bash" "pip install requests").
  reflexivity.
Defined.

(** X12: the rewriter can synthesize a use of a module it does not
    import: a body that uses [obj.] without assigning [obj] and without
    [requests.] gets the line [obj = requests ...] and no
    [import requests] line. *)
Theorem obj_placeholder_without_import (body : string) :
  contains "obj." body = true ->
  contains "obj =" body = false ->
  contains "obj=" body = false ->
  contains "requests." body = false ->
  In (ln "obj = requests  # Example object for inspection") (import_lines body)
  /\ ~ In (ln "import requests") (import_lines body).
Proof.
  intros H1 H2 H3 H4. unfold import_lines.
  rewrite H1, H2, H3, H4. cbn [andb negb].
  rewrite !in_app_iff, !in_optional, !import_condition.
  destruct (contains "pkg_resources" body); cbn;
    intuition (try discriminate; try congruence).
Qed.

Lemma obj_placeholder_without_import_witness :
  In (ln "obj = requests  # Example object for inspection")
     (import_lines "print(obj.name)")
  /\ ~ In (ln "import requests") (import_lines "print(obj.name)").
Proof.
  apply (obj_placeholder_without_import "print(obj.name)"); reflexivity.
Defined.

End SourceFacts.

(** ** The filter and the report of the execution validator *)

Section FilterFacts.

Lemma prefix_self_append (p b : string) : prefix p (p ++ b) = true.
Proof.
  induction p as [|x p IH]; simpl; [apply prefix_nil|].
  destruct (ascii_dec x x) as [_|N]; [exact IH | now destruct N].
Qed.

Lemma contains_append_l (p a s : string) :
  contains p s = true -> contains p (a ++ s) = true.
Proof.
  intros H. induction a as [|x a IH]; [exact H|].
  simpl append. now apply contains_cons.
Qed.

Lemma contains_infix (p a b : string) : contains p (a ++ p ++ b) = true.
Proof. apply contains_append_l, contains_prefix, prefix_self_append. Qed.

Lemma filtered_subsequence (cs : list Validate.ncell) :
  Order.subsequence (Validate.filtered_cells cs) cs.
Proof.
  unfold Validate.filtered_cells.
  induction cs as [|c cs IH]; [constructor|]. cbn [filter].
  destruct (negb (Validate.skipped c)); now constructor.
Qed.

Lemma filtered_permutation (cs : list Validate.ncell) :
  Permutation (Validate.filtered_cells cs ++ filter Validate.skipped cs) cs.
Proof.
  unfold Validate.filtered_cells.
  induction cs as [|c cs IH]; [constructor|]. cbn [filter].
  destruct (Validate.skipped c); cbn [negb].
  - apply Permutation_sym, Permutation_cons_app, Permutation_sym, IH.
  - cbn [app]. now constructor.
Qed.

(** X13: the filter of [validate_notebook] keeps order and drops
    marked code cells only: the kept cells are the cells of the notebook
    with some left out, in their order; the kept and the dropped cells
    together are the cells of the notebook, each as often as it occurs;
    no kept cell is a code cell that mentions the shell marker,
    [pkg_resources] or [import mcp] or that is on the allow-list, and
    every dropped cell is such a code cell; so every cell that is not a
    code cell is kept. *)
Theorem filter_drops_only_marked_code (cs : list Validate.ncell) :
  Order.subsequence (Validate.filtered_cells cs) cs
  /\ Permutation (Validate.filtered_cells cs ++ filter Validate.skipped cs) cs
  /\ Forall (fun c => Validate.skipped c = false) (Validate.filtered_cells cs)
  /\ Forall (fun c =>
               Validate.cell_type c = "code"
               /\ (Validate.mentions "%%bash" (Validate.source c) = true
                   \/ Validate.mentions "pkg_resources" (Validate.source c) = true
                   \/ Validate.mentions "import mcp" (Validate.source c) = true
                   \/ Validate.is_problematic c = true))
            (filter Validate.skipped cs)
  /\ filter (fun c => negb (String.eqb (Validate.cell_type c) "code"))
            (Validate.filtered_cells cs)
     = filter (fun c => negb (String.eqb (Validate.cell_type c) "code")) cs
  /\ List.length (Validate.filtered_cells cs)
     + List.length (filter Validate.skipped cs)
     = List.length cs.
Proof.
  split; [apply filtered_subsequence|].
  split; [apply filtered_permutation|].
  unfold Validate.filtered_cells. repeat split.
  - apply Forall_forall. intros c Hc. apply filter_In in Hc as [_ Hc].
    now apply negb_true_iff in Hc.
  - apply Forall_forall. intros c Hc. apply filter_In in Hc as [_ Hc].
    unfold Validate.skipped in Hc. apply andb_true_iff in Hc as [Ht Hm].
    split; [now apply String.eqb_eq|].
    rewrite !orb_true_iff in Hm. tauto.
  - induction cs as [|c cs IH]; [reflexivity|]. cbn [filter].
    destruct (Validate.skipped c) eqn:S; cbn [negb filter].
    + unfold Validate.skipped in S. apply andb_true_iff in S as [S _].
      rewrite S. exact IH.
    + destruct (negb (String.eqb (Validate.cell_type c) "code"));
        now rewrite IH.
  - induction cs as [|c cs IH]; [reflexivity|]. cbn [filter].
    destruct (Validate.skipped c); simpl; lia.
Qed.

(** X14: the allow-list of [validate_notebook] matches by substring: a
    code cell is dropped as soon as its anchor contains a listed entry,
    so an anchor that extends a listed one by further digits, or
    prefixes it with a directory, is dropped too. *)
Theorem allow_list_matches_substrings
        (c : Validate.ncell) (problem before after : string) :
  In problem Validate.problematic_cells ->
  Validate.cell_type c = "code" ->
  Validate.source_anchor c = Some (before ++ problem ++ after) ->
  Validate.skipped c = true
  /\ forall cs, ~ In c (Validate.filtered_cells cs).
Proof.
  intros Hin Ht Ha.
  assert (S : Validate.skipped c = true).
  { unfold Validate.skipped, Validate.is_problematic. rewrite Ht, Ha.
    cbn [String.eqb andb].
    assert (E : existsb (fun p => contains p (before ++ problem ++ after))
                       Validate.problematic_cells = true).
    { apply existsb_exists. exists problem. split; [exact Hin|].
      apply contains_infix. }
    rewrite E. now rewrite !orb_true_r. }
  split; [exact S|].
  intros cs Hc. unfold Validate.filtered_cells in Hc.
  apply filter_In in Hc as [_ Hc]. rewrite S in Hc. discriminate.
Qed.

Lemma allow_list_matches_substrings_witness :
  Validate.skipped
    (Validate.mkNcell "code" (Validate.SrcStr "x = 1")
       (Some ("docs/" ++ "README.md:216" ++ "0")) None [])
  = true
  /\ forall cs,
       ~ In (Validate.mkNcell "code" (Validate.SrcStr "x = 1")
               (Some ("docs/" ++ "README.md:216" ++ "0")) None [])
            (Validate.filtered_cells cs).
Proof.
  apply (allow_list_matches_substrings
           (Validate.mkNcell "code" (Validate.SrcStr "x = 1")
              (Some ("docs/" ++ "README.md:216" ++ "0")) None [])
           "README.md:216" "docs/" "0").
  - left. reflexivity.
  - reflexivity.
  - reflexivity.
Defined.

Lemma nsource_eqb_eq (a b : Validate.nsource) :
  Validate.nsource_eqb a b = true -> a = b.
Proof.
  destruct a as [x|x], b as [y|y]; simpl; try discriminate.
  - intros H. apply String.eqb_eq in H. now subst.
  - revert y; induction x as [|u x IH]; intros [|v y] H; try discriminate.
    + reflexivity.
    + apply andb_true_iff in H as [H1 H2]. apply String.eqb_eq in H1.
      specialize (IH y H2). injection IH as ->. now subst.
Qed.

(** X15: the original cell that the failure report names is the first
    code cell of the loaded notebook, in notebook order, that has no
    line with the shell marker and the same source as the failing cell;
    the index reported is its index, and no earlier cell qualifies. *)
Theorem find_original_is_first
        (orig : list Validate.ncell) (c : Validate.ncell) (j k : nat)
        (o : Validate.ncell) :
  Validate.find_original j orig c = Some (k, o) ->
  j <= k
  /\ nth_error orig (k - j) = Some o
  /\ Validate.cell_type o = "code"
  /\ Validate.any_line_bash (Validate.source o) = false
  /\ Validate.source o = Validate.source c
  /\ forall i o', i < k - j -> nth_error orig i = Some o' ->
       String.eqb (Validate.cell_type o') "code"
       && negb (Validate.any_line_bash (Validate.source o'))
       && Validate.nsource_eqb (Validate.source o') (Validate.source c)
       = false.
Proof.
  revert j; induction orig as [|x orig IH]; intros j H; [discriminate|].
  cbn [Validate.find_original] in H.
  destruct (String.eqb (Validate.cell_type x) "code"
            && negb (Validate.any_line_bash (Validate.source x))
            && Validate.nsource_eqb (Validate.source x) (Validate.source c))
    eqn:Q.
  - injection H as <- <-.
    apply andb_true_iff in Q as [Q Q3]. apply andb_true_iff in Q as [Q1 Q2].
    rewrite Nat.sub_diag. repeat split.
    + lia.
    + now apply String.eqb_eq.
    + now apply negb_true_iff.
    + now apply nsource_eqb_eq.
    + intros i o' Hi. lia.
  - destruct (IH (S j) H) as (H1 & H2 & H3 & H4 & H5 & H6).
    replace (k - j) with (S (k - S j)) by lia.
    repeat split; try assumption; try lia.
    intros [|i] o' Hi Ho'.
    + injection Ho' as <-. exact Q.
    + apply (H6 i o'); [lia | exact Ho'].
Qed.

Lemma find_original_is_first_witness :
  0 <= 1
  /\ nth_error
       [Validate.mkNcell "markdown" (Validate.SrcStr "x = 1") None None [];
        Validate.mkNcell "code" (Validate.SrcStr "x = 1") (Some "README.md:7") None [];
        Validate.mkNcell "code" (Validate.SrcStr "x = 1") (Some "README.md:9") None []]
       (1 - 0)
     = Some (Validate.mkNcell "code" (Validate.SrcStr "x = 1") (Some "README.md:7") None []).
Proof.
  destruct (find_original_is_first
              [Validate.mkNcell "markdown" (Validate.SrcStr "x = 1") None None [];
               Validate.mkNcell "code" (Validate.SrcStr "x = 1") (Some "README.md:7") None [];
               Validate.mkNcell "code" (Validate.SrcStr "x = 1") (Some "README.md:9") None []]
              (Validate.mkNcell "code" (Validate.SrcStr "x = 1") (Some "README.md:9") (Some 2) [])
              0 1
              (Validate.mkNcell "code" (Validate.SrcStr "x = 1") (Some "README.md:7") None [])
              eq_refl) as (H1 & H2 & _).
  split; [exact H1 | exact H2].
Defined.

End FilterFacts.

(** ** The reports of test_code_blocks.py *)

Section ReportFacts.

Import Report.

Variable ast_parse : string -> CodeBlocks.parse_outcome.

Lemma sorted_snoc (l : list syntax_error) (e : syntax_error) (a : nat) :
  StronglySorted lt (map err_block l) ->
  Forall (fun x => 1 <= err_block x /\ err_block x <= a) l ->
  err_block e = a + 1 ->
  StronglySorted lt (map err_block (l ++ [e]))
  /\ Forall (fun x => 1 <= err_block x /\ err_block x <= a + 1) (l ++ [e]).
Proof.
  intros Hs Hb He. split.
  - induction l as [|x l IH]; simpl.
    + repeat constructor.
    + inversion Hs as [|? ? Hs' Hx]; subst.
      inversion Hb as [|? ? Hbx Hb']; subst.
      constructor; [now apply IH|].
      rewrite map_app. apply Forall_app. split; [exact Hx|].
      repeat constructor. simpl. lia.
  - apply Forall_app. split.
    + eapply Forall_impl; [|exact Hb]. simpl. intros; lia.
    + repeat constructor; lia.
Qed.

(** The loop of [test_code_blocks] from block number [a + 1] on. *)
Lemma check_blocks_inv (bs : list CodeBlocks.block) (a : nat) (r : results) :
  StronglySorted lt (map err_block (syntax_errors r)) ->
  Forall (fun x => 1 <= err_block x /\ err_block x <= a) (syntax_errors r) ->
  total_blocks
    (fold_left (check_block ast_parse) (combine (seq a (List.length bs)) bs) r)
  = total_blocks r
  /\ python_blocks
       (fold_left (check_block ast_parse) (combine (seq a (List.length bs)) bs) r)
     = python_blocks r
  /\ valid_blocks
       (fold_left (check_block ast_parse) (combine (seq a (List.length bs)) bs) r)
     + List.length
         (syntax_errors
            (fold_left (check_block ast_parse) (combine (seq a (List.length bs)) bs) r))
     = valid_blocks r + List.length (syntax_errors r) + List.length bs
  /\ StronglySorted lt
       (map err_block
          (syntax_errors
             (fold_left (check_block ast_parse) (combine (seq a (List.length bs)) bs) r)))
  /\ Forall (fun x => 1 <= err_block x /\ err_block x <= a + List.length bs)
       (syntax_errors
          (fold_left (check_block ast_parse) (combine (seq a (List.length bs)) bs) r)).
Proof.
  revert a r; induction bs as [|b bs IH]; intros a r Hs Hb.
  - simpl. repeat split; try lia; try assumption.
    eapply Forall_impl; [|exact Hb]. simpl. intros; lia.
  - cbn [List.length seq combine fold_left].
    set (r1 := check_block ast_parse r (a, b)).
    assert (H1 : total_blocks r1 = total_blocks r
                 /\ python_blocks r1 = python_blocks r
                 /\ valid_blocks r1 + List.length (syntax_errors r1)
                    = valid_blocks r + List.length (syntax_errors r) + 1
                 /\ StronglySorted lt (map err_block (syntax_errors r1))
                 /\ Forall (fun x => 1 <= err_block x /\ err_block x <= a + 1)
                      (syntax_errors r1)).
    { unfold r1, check_block.
      destruct (CodeBlocks.validate_python_syntax ast_parse (CodeBlocks.code b)
                  (context_of a b)) as [[|] error]; cbn.
      - repeat split; try lia; try assumption.
        eapply Forall_impl; [|exact Hb]. simpl. intros; lia.
      - rewrite length_app. cbn.
        destruct (sorted_snoc (syntax_errors r)
                    (mkSyntaxError (a + 1) (Some (CodeBlocks.start_line b)) error
                       (preview (CodeBlocks.code b))) a Hs Hb eq_refl) as [S1 S2].
        repeat split; try lia; assumption. }
    destruct H1 as (T1 & P1 & V1 & S1 & B1).
    replace (a + 1) with (S a) in B1 by lia.
    destruct (IH (S a) r1 S1 B1) as (T2 & P2 & V2 & S2 & B2).
    repeat split.
    + now rewrite T2.
    + now rewrite P2.
    + rewrite V2, V1. lia.
    + exact S2.
    + eapply Forall_impl; [|exact B2]. simpl. intros; lia.
Qed.

(** X16: the report of [test_code_blocks] adds up and is complete: it
    counts every block of the document, the python blocks are among
    them, every python block is either valid or listed as a syntax
    error, and the errors are listed in block order with block numbers
    between 1 and the number of python blocks: a failure does not stop
    the check. *)
Theorem code_block_report_adds_up (content : string) :
  total_blocks (test_code_blocks ast_parse content)
  = List.length (finditer content)
  /\ python_blocks (test_code_blocks ast_parse content)
     <= total_blocks (test_code_blocks ast_parse content)
  /\ valid_blocks (test_code_blocks ast_parse content)
     + List.length (syntax_errors (test_code_blocks ast_parse content))
     = python_blocks (test_code_blocks ast_parse content)
  /\ StronglySorted lt
       (map err_block (syntax_errors (test_code_blocks ast_parse content)))
  /\ Forall (fun e => 1 <= err_block e
                      /\ err_block e
                         <= python_blocks (test_code_blocks ast_parse content))
       (syntax_errors (test_code_blocks ast_parse content)).
Proof.
  unfold test_code_blocks, enumerate.
  set (blocks := CodeBlocks.extract_code_blocks content).
  set (py := filter is_python_block blocks).
  destruct (check_blocks_inv py 0
              (mkResults (List.length blocks) (List.length py) [] 0))
    as (T & P & V & S & B); [constructor | constructor |].
  rewrite T, P. cbn [total_blocks python_blocks valid_blocks syntax_errors] in *.
  repeat split.
  - unfold blocks, CodeBlocks.extract_code_blocks. apply length_map.
  - apply filter_length_le.
  - exact V.
  - exact S.
  - exact B.
Qed.

Lemma check_cells_inv (l : list (nat * cell)) (r : nb_results) :
  Forall (fun ic =>
            cell_type (snd ic) = "markdown"
            \/ (cell_type (snd ic) = "code"
                /\ startswith (join "" (source (snd ic))) "%%bash" = false)) l ->
  total_cells (fold_left (check_cell ast_parse) l r) = total_cells r
  /\ shell_commands (fold_left (check_cell ast_parse) l r) = shell_commands r
  /\ code_cells (fold_left (check_cell ast_parse) l r)
     + markdown_cells (fold_left (check_cell ast_parse) l r)
     = code_cells r + markdown_cells r + List.length l.
Proof.
  intros H; revert r; induction H as [|[i c] l Hc _ IH]; intros r.
  - simpl. repeat split; lia.
  - cbn [fold_left List.length].
    set (r1 := check_cell ast_parse r (i, c)).
    assert (H1 : total_cells r1 = total_cells r
                 /\ shell_commands r1 = shell_commands r
                 /\ code_cells r1 + markdown_cells r1
                    = code_cells r + markdown_cells r + 1).
    { unfold r1, check_cell. cbn [snd] in Hc. destruct Hc as [->|[-> Hb]].
      - cbn. repeat split; lia.
      - cbn [String.eqb Ascii.eqb Bool.eqb andb]. cbv zeta. rewrite Hb.
        destruct (CodeBlocks.validate_python_syntax ast_parse _ _) as [[|] error];
          cbn; repeat split; lia. }
    destruct H1 as (T1 & S1 & C1). destruct (IH r1) as (T2 & S2 & C2).
    repeat split.
    + now rewrite T2.
    + now rewrite S2.
    + rewrite C2, C1. lia.
Qed.

Lemma anchored_not_shell_source (file_path : string) (line : nat) (c : cell) :
  Origin.anchored_at file_path line c ->
  cell_type c = "markdown"
  \/ (cell_type c = "code" /\ startswith (join "" (source c)) "%%bash" = false).
Proof.
  intros [_ [(H & _)|(H & _ & _ & rest & Hsrc)]]; [now left | right].
  split; [exact H|]. rewrite Hsrc. unfold join. rewrite concat_cons.
  reflexivity.
Qed.

(** X17: on every notebook that [convert] produces, [test_notebook_cells]
    counts no shell command: the joined source of every code cell starts
    with its anchor comment (or, for the setup cell, with its heading),
    never with the shell marker, so the shell cells are handed to the
    syntax check with the others; every cell is counted as a code cell
    or a markdown cell. *)
Theorem notebook_report_counts_no_shell
        (file_path content : string) (no_setup no_toc : bool) :
  shell_commands
    (test_notebook_cells ast_parse
       (cells (convert file_path content no_setup no_toc))) = 0
  /\ total_cells
       (test_notebook_cells ast_parse
          (cells (convert file_path content no_setup no_toc)))
     = List.length (cells (convert file_path content no_setup no_toc))
  /\ code_cells
       (test_notebook_cells ast_parse
          (cells (convert file_path content no_setup no_toc)))
     + markdown_cells
         (test_notebook_cells ast_parse
            (cells (convert file_path content no_setup no_toc)))
     = List.length (cells (convert file_path content no_setup no_toc)).
Proof.
  unfold test_notebook_cells, enumerate.
  set (cs := cells (convert file_path content no_setup no_toc)).
  assert (Hcs : Forall (fun c =>
                          cell_type c = "markdown"
                          \/ (cell_type c = "code"
                              /\ startswith (join "" (source c)) "%%bash" = false))
                       cs).
  { apply convert_cells_Forall.
    - right. split; reflexivity.
    - now left.
    - eapply Forall_impl; [|apply parse_anchored].
      intros c (line & _ & _ & H). now apply anchored_not_shell_source in H. }
  destruct (check_cells_inv (combine (seq 0 (List.length cs)) cs)
              (mkNbResults (List.length cs) 0 0 [] 0)) as (T & S & C).
  { apply Forall_forall. intros [i c] Hin. apply in_combine_r in Hin.
    rewrite Forall_forall in Hcs. now apply Hcs. }
  rewrite T, S, C. cbn.
  rewrite length_combine, length_seq. repeat split; lia.
Qed.

End ReportFacts.

Section ValidatorBlocks.

(** X18: the syntax validator re-extracts the blocks the converter
    sees: for every match, in order, [extract_code_blocks] holds a block
    that is a python block exactly when the converter takes the tag for
    a python tag (an absent tag is neither), with the trimmed body that
    the converter classifies and with the line that the converter puts
    in the anchor. *)
Theorem validator_sees_converter_blocks (content : string) :
  map (fun b => (Report.is_python_block b, CodeBlocks.code b,
                 CodeBlocks.start_line b))
      (CodeBlocks.extract_code_blocks content)
  = map (fun m => (is_python_tag (language_of m), strip (group2 m),
                   line_at content (m_start m)))
        (finditer content).
Proof.
  unfold CodeBlocks.extract_code_blocks. rewrite map_map.
  apply map_ext. intros m.
  unfold Report.is_python_block, is_python_tag, language_of, line_at.
  cbn [CodeBlocks.language CodeBlocks.code CodeBlocks.start_line].
  destruct (group1 m) as [[|c w]|]; reflexivity.
Qed.

Lemma prefix_prompt (l : string) :
  startswith l ">>> " = true -> startswith l ">>>" = true.
Proof.
  unfold startswith. intros H. rewrite (prefix_split _ _ H). reflexivity.
Qed.

(** X19: on a transcript whose every line carries the prompt and a
    space and has no surrounding whitespace, the text handed to the
    parser is the lines without these four characters, joined by
    newlines. *)
Theorem pure_transcript_loses_prompts (code : string) :
  Forall (fun l => strip l = l /\ startswith l ">>> " = true) (split_nl code) ->
  CodeBlocks.strip_prompts code = join NL (map (drop 4) (split_nl code)).
Proof.
  intros H.
  assert (C : contains ">>>" code = true).
  { apply line_prefix_contains.
    destruct (split_nl code) as [|l ls] eqn:S;
      [now destruct (split_nl_nonempty code)|].
    inversion H as [|? ? [_ Hl] _]; subst.
    simpl. now rewrite (prefix_prompt _ Hl). }
  unfold CodeBlocks.strip_prompts. rewrite C. cbn [orb]. f_equal.
  rewrite fold_prompt_step. cbn [app].
  induction H as [|l ls [Hs Hl] _ IH]; [reflexivity|].
  cbn [flat_map map]. rewrite IH.
  unfold CodeBlocks.kept_line. cbv zeta. rewrite Hs, Hl. reflexivity.
Qed.

Lemma pure_transcript_loses_prompts_witness :
  CodeBlocks.strip_prompts (">>> x = 1" ++ NL ++ ">>> print(x)")
  = join NL (map (drop 4) (split_nl (">>> x = 1" ++ NL ++ ">>> print(x)"))).
Proof.
  apply (pure_transcript_loses_prompts (">>> x = 1" ++ NL ++ ">>> print(x)")).
  repeat constructor.
Defined.

End ValidatorBlocks.

(** ** Further edge cases *)

Section EdgeFacts.

(** X20: when no executed code cell holds an error output (the
    execution failed without one, as on a timeout), the failure report
    names no cell: the validator prints the failure line only and
    returns [False]. *)
Theorem failure_without_error_output
        (preprocess : list Validate.ncell -> list Validate.ncell * Validate.result unit)
        (notebook_cells : list Validate.ncell) (e : Validate.exn) :
  snd (preprocess (Validate.filtered_cells notebook_cells)) = Validate.Raised e ->
  Forall (fun c =>
            Forall (fun o => String.eqb (Validate.output_type o) "error" = false)
                   (Validate.outputs c))
         (fst (preprocess (Validate.filtered_cells notebook_cells))) ->
  Validate.validate_notebook preprocess notebook_cells
  = ([Validate.ExecutionFailed e], Validate.Ok false).
Proof.
  intros Hr Hout.
  assert (R : forall orig i executed,
             Forall (fun c =>
                       Forall (fun o => String.eqb (Validate.output_type o) "error" = false)
                              (Validate.outputs c)) executed ->
             Validate.error_report orig i executed = []).
  { intros orig i executed H; revert i.
    induction H as [|c cs Hc _ IH]; intros i; [reflexivity|].
    cbn [Validate.error_report]. rewrite IH, app_nil_r.
    assert (F : filter (fun o => String.eqb (Validate.output_type o) "error")
                       (Validate.outputs c) = []).
    { induction Hc as [|o os Ho _ IHo]; [reflexivity|].
      simpl. now rewrite Ho. }
    rewrite F. now destruct (_ && _). }
  unfold Validate.validate_notebook, Validate.run_preprocess.
  destruct (preprocess (Validate.filtered_cells notebook_cells)) as [after r].
  cbn [fst snd] in *. subst r. cbn. now rewrite (R _ _ _ Hout).
Qed.

Lemma failure_without_error_output_witness :
  Validate.validate_notebook
    (fun cs => (cs, Validate.Raised "CellTimeoutError"))
    [Validate.mkNcell "code" (Validate.SrcStr "while True: pass") None None []]
  = ([Validate.ExecutionFailed "CellTimeoutError"], Validate.Ok false).
Proof.
  apply (failure_without_error_output
           (fun cs => (cs, Validate.Raised "CellTimeoutError"))
           [Validate.mkNcell "code" (Validate.SrcStr "while True: pass") None None []]
           "CellTimeoutError").
  - reflexivity.
  - repeat constructor.
Defined.

(** X21: on a body none of whose lines uses an attribute of
    [pkg_resources], the loop that guards the uses only removes the
    lines that import it: the other lines are kept in order, each with
    its newline, and no guard is inserted. *)
Theorem modified_lines_without_uses (lines : list string) :
  Forall (fun line => contains "pkg_resources." line = false) lines ->
  modified_lines false lines
  = map ln (filter (fun line =>
                      negb (startswith (strip line) "import pkg_resources"))
                   lines).
Proof.
  induction 1 as [|line lines Hl _ IH]; [reflexivity|].
  cbn [modified_lines filter]. rewrite Hl.
  destruct (startswith (strip line) "import pkg_resources"); cbn [negb andb].
  - exact IH.
  - cbn [map]. now rewrite IH.
Qed.

Lemma modified_lines_without_uses_witness :
  modified_lines false ["import pkg_resources"; "print('ready')"]
  = map ln (filter (fun line =>
                      negb (startswith (strip line) "import pkg_resources"))
                   ["import pkg_resources"; "print('ready')"]).
Proof.
  apply (modified_lines_without_uses ["import pkg_resources"; "print('ready')"]).
  repeat constructor.
Defined.

Lemma prose_cells_length (file_path content : string) (o : nat) (span : string) :
  List.length (prose_cells file_path content o span) <= 1.
Proof. unfold prose_cells. destruct (nonempty (strip span)); simpl; lia. Qed.

Lemma parse_loop_length (file_path content : string) (ms : list re_match)
      (last_end : nat) :
  List.length ms <= List.length (parse_loop file_path content ms last_end)
  /\ List.length (parse_loop file_path content ms last_end)
     <= 2 * List.length ms + 1.
Proof.
  revert last_end; induction ms as [|m ms IH]; intros last_end;
    cbn [parse_loop List.length].
  - pose proof (prose_cells_length file_path content last_end
                  (drop last_end content)). lia.
  - rewrite length_app. cbn [List.length].
    pose proof (prose_cells_length file_path content last_end
                  (slice content last_end (m_start m))).
    destruct (IH (m_end m)). lia.
Qed.

(** X22: a document with [n] fenced blocks yields at least [n] cells,
    one for each block, and at most [2 * n + 1], one more for each
    stretch of prose before, between and after the blocks. *)
Theorem cell_count_bounds (file_path content : string) :
  List.length (finditer content)
  <= List.length (parse_markdown_file file_path content)
  /\ List.length (parse_markdown_file file_path content)
     <= 2 * List.length (finditer content) + 1.
Proof. apply parse_loop_length. Qed.

Lemma rstrip_head (c : ascii) (s : string) :
  isspace c = false -> nonempty (rstrip (String c s)) = true.
Proof.
  intros H. cbn [rstrip]. destruct (rstrip s); [now rewrite H | reflexivity].
Qed.

Lemma nonempty_strip (s : string) :
  nonempty (strip s) = negb (forallb isspace (list_ascii_of_string s)).
Proof.
  unfold strip. induction s as [|c s IH]; [reflexivity|].
  cbn [lstrip list_ascii_of_string forallb].
  destruct (isspace c) eqn:E; cbn [andb].
  - exact IH.
  - now rewrite (rstrip_head c s E).
Qed.

(** X23: a stretch of prose yields a cell exactly when it holds a
    character that is not whitespace; a stretch made of whitespace only
    (for instance the blank line between two blocks) yields none. *)
Theorem prose_cell_iff_not_blank
        (file_path content : string) (last_end : nat) (span : string) :
  prose_cells file_path content last_end span
  = if forallb isspace (list_ascii_of_string span)
    then []
    else [prose_cell file_path (line_at content last_end) (strip span)].
Proof.
  unfold prose_cells. cbv zeta. rewrite nonempty_strip.
  now destruct (forallb isspace (list_ascii_of_string span)).
Qed.

End EdgeFacts.
